(** * Unity bundle normalisation and typed extraction

    A shallow embedding of the three scripts of [unity-asset-extract]:
    - [strip_cfs.py]        (module [StripCfs]),
    - [extract_assets.py]   (module [ExtractAssets]),
    - [extract_textures.py] (module [ExtractTextures]),
    and the properties of the design document checked against them.

    Modelling conventions.
    - A byte string ([bytes]) is a [list byte]; a [str] is a [string]
      (text is represented by its encoding, names range over [ascii]).
    - Python integers are [Z].
    - The file system is a finite map from path to content.  Only regular
      files are stored: a directory exists implicitly, so [os.makedirs] has
      no effect on the map, and every path is taken to be writable
      (permission and capacity errors of the operating system are outside
      the model).
    - Statements run in the monad [Py]: they transform a [World] (files and
      printed messages) and either return a value or raise.  The world
      reached when an exception is raised is kept, as in Python.
    - Of the printed lines, the warnings and the error reports are kept,
      as [message]s; progress lines and the summary table are left out.
    - The bundle parser (UnityPy), the image codec (Pillow) and the digest
      (hashlib) are not part of the scripts: the parser is a parameter of
      the engines, an object carries what [obj.read()] gives, an image
      carries what the encoder makes of it, and SHA-1 is written out. *)

From Stdlib Require Import ZArith List Ascii String DecimalString.
From Stdlib.Strings Require Import Byte.
From stdpp Require Import base decidable option list gmap strings sorting.

Local Open Scope string_scope.
Local Open Scope Z_scope.
Local Open Scope list_scope.

(** ** Bytes *)

Abbreviation bytes := (list byte).

#[global] Instance byte_eq_decision : EqDecision byte := Byte.byte_eq_dec.

(** The literal [b"..."]. *)
Definition b (s : string) : bytes := list_byte_of_string s.

Definition Z_of_byte (x : byte) : Z := Z.of_N (Byte.to_N x).

Definition byte_of_Z (z : Z) : byte :=
  match Byte.of_N (Z.to_N (z mod 256)) with
  | Some x => x
  | None => x00
  end.

(** [data.startswith(prefix)] on byte strings. *)
Definition startswith (data prefix : bytes) : bool :=
  bool_decide (take (length prefix) data = prefix).

(** ** hashlib.sha1

    The digest of the standard library, written out after FIPS 180-4 on
    32-bit words held in [Z]. *)
Module SHA1.

Definition w32 (x : Z) : Z := x mod 2 ^ 32.

Definition add32 (x y : Z) : Z := w32 (x + y).

Definition rotl (n x : Z) : Z :=
  w32 (Z.lor (Z.shiftl x n) (Z.shiftr x (32 - n))).

Definition not32 (x : Z) : Z := Z.lxor x (2 ^ 32 - 1).

(** Big-endian encoding of [z] on [n] bytes. *)
Fixpoint be_bytes (n : nat) (z : Z) : list Z :=
  match n with
  | O => []
  | S n' => be_bytes n' (Z.shiftr z 8) ++ [z mod 256]
  end.

Definition be_word (bs : list Z) : Z :=
  fold_left (fun acc x => Z.lor (Z.shiftl acc 8) x) bs 0.

(** Message, then 0x80, then zeros up to 56 modulo 64, then the bit
    length on 8 bytes. *)
Definition pad (msg : list Z) : list Z :=
  let len := Z.of_nat (length msg) in
  let zeros := Z.to_nat ((55 - len) mod 64) in
  msg ++ [128] ++ repeat 0 zeros ++ be_bytes 8 (8 * len).

Fixpoint chunks (fuel : nat) (n : nat) (l : list Z) : list (list Z) :=
  match fuel with
  | O => []
  | S fuel' =>
      match l with
      | [] => []
      | _ => take n l :: chunks fuel' n (drop n l)
      end
  end.

(** The schedule is kept most recent word first. *)
Fixpoint schedule (k : nat) (rev_w : list Z) : list Z :=
  match k with
  | O => rev_w
  | S k' =>
      let x := Z.lxor (Z.lxor (nth 2 rev_w 0) (nth 7 rev_w 0))
                      (Z.lxor (nth 13 rev_w 0) (nth 15 rev_w 0)) in
      schedule k' (rotl 1 x :: rev_w)
  end.

Definition f_k (t : Z) (x y z : Z) : Z * Z :=
  if t <? 20 then (Z.lor (Z.land x y) (Z.land (not32 x) z), 0x5A827999)
  else if t <? 40 then (Z.lxor (Z.lxor x y) z, 0x6ED9EBA1)
  else if t <? 60 then
    (Z.lor (Z.lor (Z.land x y) (Z.land x z)) (Z.land y z), 0x8F1BBCDC)
  else (Z.lxor (Z.lxor x y) z, 0xCA62C1D6).

Record regs := Regs { ra : Z; rb : Z; rc : Z; rd : Z; re : Z }.

Fixpoint rounds (t : Z) (ws : list Z) (r : regs) : regs :=
  match ws with
  | [] => r
  | w :: ws' =>
      let '(f, k) := f_k t (rb r) (rc r) (rd r) in
      let temp := add32 (add32 (add32 (add32 (rotl 5 (ra r)) f) (re r)) k) w in
      rounds (t + 1) ws' (Regs temp (ra r) (rotl 30 (rb r)) (rc r) (rd r))
  end.

Definition compress (h : regs) (block : list Z) : regs :=
  let w16 := map be_word (chunks 16 4 block) in
  let ws := rev (schedule 64 (rev w16)) in
  let r := rounds 0 ws h in
  Regs (add32 (ra h) (ra r)) (add32 (rb h) (rb r)) (add32 (rc h) (rc r))
       (add32 (rd h) (rd r)) (add32 (re h) (re r)).

Definition init : regs :=
  Regs 0x67452301 0xEFCDAB89 0x98BADCFE 0x10325476 0xC3D2E1F0.

Definition digest (data : bytes) : bytes :=
  let p := pad (map Z_of_byte data) in
  let h := fold_left compress (chunks (length p) 64 p) init in
  map byte_of_Z
      (be_bytes 4 (ra h) ++ be_bytes 4 (rb h) ++ be_bytes 4 (rc h)
       ++ be_bytes 4 (rd h) ++ be_bytes 4 (re h)).

End SHA1.

(** ** The world and the statement monad *)

Inductive message :=
| WarnNotUnityFS (input_path : string)
| WarnSha1Mismatch (input_path : string)
| MsgCfsStripped (rel_path : string)
| MsgError (rel_path : string)
| MsgUsage
| MsgNotFound (input_path : string)
| MsgLoadError (bundle_file : string)
| WarnUnknownTypes (invalid : list string).

#[global] Instance message_eq_decision : EqDecision message.
Proof. solve_decision. Defined.

Record World := mkWorld {
  files : gmap string bytes;
  stdout : list message
}.

Inductive exn := Exception (msg : string).

Inductive outcome (A : Type) :=
| Ret (a : A)
| Raise (e : exn).
Arguments Ret {A} a.
Arguments Raise {A} e.

Definition Py (A : Type) : Type := World -> World * outcome A.

Definition ret {A} (a : A) : Py A := fun w => (w, Ret a).

Definition raise {A} (e : exn) : Py A := fun w => (w, Raise e).

Definition bind {A B} (m : Py A) (k : A -> Py B) : Py B :=
  fun w =>
    match m w with
    | (w', Ret a) => k a w'
    | (w', Raise e) => (w', Raise e)
    end.

(** [try: m  except Exception as e: h e]. *)
Definition try_except {A} (m : Py A) (h : exn -> Py A) : Py A :=
  fun w =>
    match m w with
    | (w', Ret a) => (w', Ret a)
    | (w', Raise e) => h e w'
    end.

(** Evaluation of an expression that may raise. *)
Definition eval {A} (o : outcome A) : Py A := fun w => (w, o).

Notation "'let*' x ':=' m 'in' k" := (bind m (fun x => k))
  (at level 10, x name, m at level 100, k at level 200).
Notation "m '>>' k" := (bind m (fun _ => k))
  (at level 100, k at level 200, right associativity).

Definition when (c : bool) (m : Py unit) : Py unit :=
  if c then m else ret tt.

Fixpoint for_each {A} (l : list A) (body : A -> Py unit) : Py unit :=
  match l with
  | [] => ret tt
  | x :: l' => body x >> for_each l' body
  end.

(** *** Primitive effects *)

Definition print (m : message) : Py unit :=
  fun w => (mkWorld (files w) (stdout w ++ [m]), Ret tt).

(** [os.path.exists(path)]. *)
Definition path_exists (path : string) : Py bool :=
  fun w => (w, Ret (bool_decide (is_Some (files w !! path)))).

(** [open(path, "rb")] followed by reads: the handle is the content that
    is still unread. *)
Definition open_rb (path : string) : Py bytes :=
  fun w =>
    match files w !! path with
    | Some content => (w, Ret content)
    | None => (w, Raise (Exception "No such file or directory"))
    end.

(** [f.read(n)]: the bytes read and the handle after them. *)
Definition file_read (n : nat) (f : bytes) : bytes * bytes :=
  (take n f, drop n f).

(** [f.read()]. *)
Definition file_read_all (f : bytes) : bytes * bytes := (f, []).

(** [with open(path, "wb") as out: out.write(data)]; also the text-mode
    forms, text being held encoded. *)
Definition write_file (path : string) (data : bytes) : Py unit :=
  fun w => (mkWorld (<[path := data]> (files w)) (stdout w), Ret tt).

(** [os.remove(path)]. *)
Definition remove_file (path : string) : Py unit :=
  fun w => (mkWorld (delete path (files w)) (stdout w), Ret tt).

(** [os.makedirs(path, exist_ok=True)]: directories are implicit in the
    store of files, so making one changes nothing.  That a regular file
    can stand in the way, and [os.makedirs] then raises, is not
    represented: like [write_file], the creation of a directory is
    taken to succeed. *)
Definition makedirs (path : string) : Py unit := ret tt.

(** [struct.unpack("<I", data)[0]]: raises [struct.error] unless [data]
    has exactly four bytes. *)
Definition struct_unpack_I (data : bytes) : outcome Z :=
  match data with
  | [b0; b1; b2; b3] =>
      Ret (Z_of_byte b0 + Z.shiftl (Z_of_byte b1) 8
           + Z.shiftl (Z_of_byte b2) 16 + Z.shiftl (Z_of_byte b3) 24)
  | _ => Raise (Exception "unpack requires a buffer of 4 bytes")
  end.

(** ** Strings and paths *)

(** [str.lower()] on one character. *)
Definition ascii_lower (c : ascii) : ascii :=
  let n := N_of_ascii c in
  if ((65 <=? n) && (n <=? 90))%N then ascii_of_N (n + 32) else c.

Fixpoint lower (s : string) : string :=
  match s with
  | EmptyString => EmptyString
  | String c s' => String (ascii_lower c) (lower s')
  end.

(** [c.isalnum()]. *)
Definition isalnum (c : ascii) : bool :=
  let n := N_of_ascii c in
  (((48 <=? n) && (n <=? 57)) || ((65 <=? n) && (n <=? 90))
   || ((97 <=? n) && (n <=? 122)))%N.

(** [c in "._-"] for a character [c]. *)
Definition in_dot_underscore_dash (c : ascii) : bool :=
  (Ascii.eqb c "." || Ascii.eqb c "_" || Ascii.eqb c "-")%char.

(** [needle in s]. *)
Definition contains (needle s : string) : bool :=
  match String.index 0 needle s with
  | Some _ => true
  | None => false
  end.

(** [s.split(sep)] for a one-character separator. *)
Fixpoint split_on (sep : ascii) (s : string) : list string :=
  match s with
  | EmptyString => [EmptyString]
  | String c s' =>
      if Ascii.eqb c sep then EmptyString :: split_on sep s'
      else match split_on sep s' with
           | [] => [String c EmptyString]
           | x :: xs => String c x :: xs
           end
  end.

(** [str(n)] and [f"{n}"] for an integer. *)
Definition str_of_Z (n : Z) : string := NilEmpty.string_of_int (Z.to_int n).

(** [x or default] for strings. *)
Definition str_or (x default : string) : string :=
  if bool_decide (x = "") then default else x.

(** [os.path.join(a, p)] (posixpath). *)
Definition os_path_join (a p : string) : string :=
  if String.prefix "/" p then p
  else if bool_decide (a = "") || String.prefix "/" (String.rev a)
       then a +:+ p
       else a +:+ "/" +:+ p.

(** [os.path.dirname(p)] (posixpath): [p] up to its last separator,
    without trailing separators unless it consists of separators only. *)
Fixpoint drop_to_slash (reversed : string) : string :=
  match reversed with
  | EmptyString => EmptyString
  | String c rest =>
      if Ascii.eqb c "/" then reversed else drop_to_slash rest
  end.

Fixpoint lstrip_slash (s : string) : string :=
  match s with
  | EmptyString => EmptyString
  | String c rest => if Ascii.eqb c "/" then lstrip_slash rest else s
  end.

Definition os_path_dirname (p : string) : string :=
  let reversed_head := drop_to_slash (String.rev p) in
  let stripped := String.rev (lstrip_slash reversed_head) in
  if bool_decide (stripped = "") then String.rev reversed_head else stripped.

(** [pathlib]: a path is held as its string, written with [/] and without
    a trailing separator. *)
Module Pathlib.

Definition parts (p : string) : list string := split_on "/" p.

(** [p.name]. *)
Definition name (p : string) : string := List.last (parts p) "".

(** [s.rfind(".")], [None] for -1. *)
Fixpoint rfind_dot (s : string) : option nat :=
  match s with
  | EmptyString => None
  | String c s' =>
      match rfind_dot s' with
      | Some i => Some (S i)
      | None => if Ascii.eqb c "." then Some O else None
      end
  end.

(** [p.suffix]: the part of the name from its last dot, when that dot
    is neither the first nor the last character of the name. *)
Definition suffix (p : string) : string :=
  let n := name p in
  match rfind_dot n with
  | Some i =>
      if ((0 <? i) && (i <? String.length n - 1))%nat
      then String.substring i (String.length n - i) n
      else ""
  | None => ""
  end.

(** [p < q] or [p == q]: paths compare as the lists of their parts. *)
Fixpoint parts_leb (l1 l2 : list string) : bool :=
  match l1, l2 with
  | [], _ => true
  | _ :: _, [] => false
  | x :: l1', y :: l2' =>
      match String.compare x y with
      | Lt => true
      | Gt => false
      | Eq => parts_leb l1' l2'
      end
  end.

Definition le (p q : string) : Prop := parts_leb (parts p) (parts q) = true.

#[global] Instance le_dec : RelDecision le.
Proof. intros p q. unfold le. apply _. Defined.

(** [sorted(paths)]. *)
Definition sorted (paths : list string) : list string := merge_sort le paths.

(** [root.rglob("*")] restricted to regular files: the files below
    [root], in the order of the directory scan.  Paths are compared as
    they are written: [root] is taken in the form [pathlib] gives it,
    without a trailing separator. *)
Definition rglob_files (root : string) (w : World) : list string :=
  filter (fun p => String.prefix (root +:+ "/") p = true)
         (map fst (map_to_list (files w))).

(** [p.stat().st_size]. *)
Definition st_size (p : string) (w : World) : Z :=
  match files w !! p with
  | Some content => Z.of_nat (length content)
  | None => 0
  end.

(** [p.relative_to(root)] for [p] below [root]. *)
Definition relative_to (p root : string) : string :=
  String.substring (String.length root + 1)
                   (String.length p - (String.length root + 1)) p.

End Pathlib.

(** ** The external collaborators: parser objects and the image codec *)

(** A decoded image ([PIL.Image]): its size and what the PNG encoder makes
    of it. *)
Record Image := mkImage {
  img_size : Z * Z;
  png : outcome bytes
}.

(** [img.save(outpath)] as Pillow does it: the file is opened with mode
    [w+b], the encoder runs, and when the encoder raises the file is
    removed again if this call created it. *)
Definition image_save (img : Image) (outpath : string) : Py unit :=
  let* existed := path_exists outpath in
  write_file outpath [] >>
  match png img with
  | Ret data => write_file outpath data
  | Raise e => when (negb existed) (remove_file outpath) >> raise e
  end.

(** [data.m_Script] is a [str] or a bytes-like value.  A [str] is held
    by its UTF-8 encoding, which is what the text file receives; a [str]
    that UTF-8 cannot encode (it holds a lone surrogate) is
    [ScriptUnencodable].  [bytes(script)] of a bytes-like value is its
    content. *)
Inductive Script :=
| ScriptStr (text : string)
| ScriptUnencodable
| ScriptBytes (data : bytes).

(** The fields the exporters read from [obj.read()].  Decoded properties
    may raise; an absent image is [None]. *)
Record ObjectData := mkObjectData {
  m_Name : string;
  m_Width : Z;
  m_Height : Z;
  image : outcome (option Image);
  export : outcome string;
  samples : outcome (list (string * bytes));
  m_Script : Script;
  m_FontData : bytes
}.

(** An object of a loaded bundle: [obj.type.name], [obj.path_id] and
    [obj.read()]. *)
Record AssetObject := mkAssetObject {
  type_name : string;
  path_id : Z;
  read : outcome ObjectData
}.

(** [open(path, "w")] followed by [f.write(text)]. *)
Definition write_text (path text : string) : Py unit :=
  write_file path (list_byte_of_string text).

(** The same two steps for a [str] that the codec of the file rejects:
    [open] creates or truncates the file, then [f.write] raises
    [UnicodeEncodeError] and the empty file stays. *)
Definition write_unencodable (path : string) : Py unit :=
  write_file path [] >> raise (Exception "UnicodeEncodeError").

(** Reading the world without changing it. *)
Definition reads {A} (f : World -> A) : Py A := fun w => (w, Ret (f w)).

(** A loop that threads an accumulator. *)
Fixpoint fold_m {A S} (body : S -> A -> Py S) (l : list A) (acc : S) : Py S :=
  match l with
  | [] => ret acc
  | x :: l' => let* acc' := body acc x in fold_m body l' acc'
  end.

(** The interpreter running a script whose [main] returns the status it
    passes to [sys.exit] (0 when it returns normally): an uncaught
    exception ends the process with status 1. *)
Definition exit_status (main : Py Z) (w : World) : World * Z :=
  match main w with
  | (w', Ret status) => (w', status)
  | (w', Raise _) => (w', 1)
  end.

(** ** strip_cfs.py *)
Module StripCfs.

Definition CFS_MAGIC : bytes := b "UnityCFS".
Definition CFS_HEADER_SIZE : nat := 32.
Definition UNITYFS_MAGIC : bytes := b "UnityFS".


Definition strip_cfs_header (input_path output_path : string) : Py bool :=
  let* f := open_rb input_path in
  let '(magic, f1) := file_read 8 f in
  if bool_decide (magic = CFS_MAGIC) then
    let '(version_bytes, f2) := file_read 4 f1 in
    let* version := eval (struct_unpack_I version_bytes) in
    let '(sha1_hash, f3) := file_read 20 f2 in
    let '(data, _) := file_read_all f3 in
    when (negb (startswith data UNITYFS_MAGIC))
         (print (WarnNotUnityFS input_path)) >>
    let actual_hash := SHA1.digest data in
    when (negb (bool_decide (actual_hash = sha1_hash)))
         (print (WarnSha1Mismatch input_path)) >>
    makedirs (str_or (os_path_dirname output_path) ".") >>
    write_file output_path data >>
    ret true
  else
    let '(data, _) := file_read_all f in
    makedirs (str_or (os_path_dirname output_path) ".") >>
    write_file output_path data >>
    ret false.

Record Stats := mkStats {
  cfs_stripped : nat;
  already_standard : nat;
  errors : nat;
  total : nat
}.

Definition bundle_extensions : list string :=
  [".bundle"; ".unity3d"; ".assets"; ".resource"; ""].

(** The files [process_directory] works on. *)
Definition candidate_files (input_dir : string) : Py (list string) :=
  reads (fun w =>
    let files :=
      filter (fun f =>
                (bool_decide (lower (Pathlib.suffix f) ∈ bundle_extensions)
                 || bool_decide (Pathlib.suffix f = "")) = true)
             (Pathlib.rglob_files input_dir w) in
    if bool_decide (files = []) then Pathlib.rglob_files input_dir w
    else files).

Definition process_directory (input_dir output_dir : string) : Py Stats :=
  let* files := candidate_files input_dir in
  fold_m
    (fun stats filepath =>
       let stats :=
         mkStats (cfs_stripped stats) (already_standard stats)
                 (errors stats) (S (total stats)) in
       let rel_path := Pathlib.relative_to filepath input_dir in
       let out_file := os_path_join output_dir rel_path in
       try_except
         (let* was_cfs := strip_cfs_header filepath out_file in
          if was_cfs then
            print (MsgCfsStripped rel_path) >>
            ret (mkStats (S (cfs_stripped stats)) (already_standard stats)
                         (errors stats) (total stats))
          else
            ret (mkStats (cfs_stripped stats) (S (already_standard stats))
                         (errors stats) (total stats)))
         (fun e =>
            print (MsgError rel_path) >>
            ret (mkStats (cfs_stripped stats) (already_standard stats)
                         (S (errors stats)) (total stats))))
    (Pathlib.sorted files)
    (mkStats 0 0 0 0).

(** [os.path.isfile] and [os.path.isdir]; a directory exists when a
    file lies below it, so that an empty directory is not represented:
    [isdir] answers [True] only for directories, but not for all. *)
Definition isfile (path : string) : Py bool := path_exists path.

Definition isdir (path : string) : Py bool :=
  reads (fun w => negb (bool_decide (Pathlib.rglob_files path w = []))).

(** [main], as the status handed to [sys.exit]. *)
Definition main (argv : list string) : Py Z :=
  if (length argv <? 3)%nat then
    print MsgUsage >>
    ret 1
  else
    let input_path := nth 1 argv "" in
    let output_path := nth 2 argv "" in
    let* is_file := isfile input_path in
    if is_file then
      let* was_cfs := strip_cfs_header input_path output_path in
      ret 0
    else
      let* is_dir := isdir input_path in
      if is_dir then
        let* stats := process_directory input_path output_path in
        ret 0
      else
        print (MsgNotFound input_path) >>
        ret 1.

End StripCfs.

(** ** extract_assets.py *)
Module ExtractAssets.
Import Pathlib.

Definition SUPPORTED_TYPES : gset string :=
  list_to_set ["Texture2D"; "Mesh"; "AudioClip"; "TextAsset";
               "Font"; "Sprite"; "AnimationClip"; "MonoBehaviour"].

Definition safe_filename (name : string) : string :=
  string_of_list_ascii
    (map (fun c => if isalnum c || in_dot_underscore_dash c then c
                   else "_"%char)
         (list_ascii_of_string name)).

Definition extract_texture2d (obj : AssetObject) (output_dir : string)
  : Py bool :=
  let* data := eval (read obj) in
  try_except
    (let* img := eval (image data) in
     match img with
     | Some img =>
         if (0 <? fst (img_size img)) && (0 <? snd (img_size img)) then
           let name :=
             safe_filename
               (str_or (m_Name data) ("texture_" +:+ str_of_Z (path_id obj))) in
           let outpath :=
             os_path_join output_dir
               (name +:+ "_" +:+ str_of_Z (m_Width data) +:+ "x"
                     +:+ str_of_Z (m_Height data) +:+ ".png") in
           let* taken := path_exists outpath in
           let outpath :=
             if taken then
               os_path_join output_dir
                 (name +:+ "_" +:+ str_of_Z (m_Width data) +:+ "x"
                       +:+ str_of_Z (m_Height data) +:+ "_"
                       +:+ str_of_Z (path_id obj) +:+ ".png")
             else outpath in
           image_save img outpath >>
           ret true
         else ret false
     | None => ret false
     end)
    (fun _ => ret false).

Definition extract_mesh (obj : AssetObject) (output_dir : string)
  : Py bool :=
  let* data := eval (read obj) in
  try_except
    (let name :=
       safe_filename
         (str_or (m_Name data) ("mesh_" +:+ str_of_Z (path_id obj))) in
     let outpath := os_path_join output_dir (name +:+ ".obj") in
     let* taken := path_exists outpath in
     let outpath :=
       if taken then
         os_path_join output_dir
           (name +:+ "_" +:+ str_of_Z (path_id obj) +:+ ".obj")
       else outpath in
     let* mesh_data := eval (export data) in
     if negb (bool_decide (mesh_data = "")) then
       write_text outpath mesh_data >>
       ret true
     else ret false)
    (fun _ => ret false).

(** The extension chosen from the first bytes of a sample. *)
Definition audio_ext (audio_data : bytes) : string :=
  if bool_decide (take 4 audio_data = b "OggS") then ".ogg"
  else if bool_decide (take 4 audio_data = b "RIFF") then ".wav"
  else if bool_decide (take 2 audio_data = [xff; xfb])
          || bool_decide (take 3 audio_data = b "ID3") then ".mp3"
  else ".wav".

Definition extract_audioclip (obj : AssetObject) (output_dir : string)
  : Py bool :=
  let* data := eval (read obj) in
  try_except
    (let* samples := eval (samples data) in
     if negb (bool_decide (samples = [])) then
       for_each samples (fun '(name_str, audio_data) =>
         let name :=
           safe_filename
             (str_or name_str ("audio_" +:+ str_of_Z (path_id obj))) in
         let ext := audio_ext audio_data in
         let outpath := os_path_join output_dir (name +:+ ext) in
         let* taken := path_exists outpath in
         let outpath :=
           if taken then
             os_path_join output_dir
               (name +:+ "_" +:+ str_of_Z (path_id obj) +:+ ext)
           else outpath in
         write_file outpath audio_data) >>
       ret true
     else ret false)
    (fun _ => ret false).

Definition extract_textasset (obj : AssetObject) (output_dir : string)
  : Py bool :=
  let* data := eval (read obj) in
  try_except
    (let name :=
       safe_filename
         (str_or (m_Name data) ("text_" +:+ str_of_Z (path_id obj))) in
     let script := m_Script data in
     match script with
     | ScriptStr text =>
         let outpath := os_path_join output_dir (name +:+ ".txt") in
         let* taken := path_exists outpath in
         let outpath :=
           if taken then
             os_path_join output_dir
               (name +:+ "_" +:+ str_of_Z (path_id obj) +:+ ".txt")
           else outpath in
         write_text outpath text >>
         ret true
     | ScriptUnencodable =>
         let outpath := os_path_join output_dir (name +:+ ".txt") in
         let* taken := path_exists outpath in
         let outpath :=
           if taken then
             os_path_join output_dir
               (name +:+ "_" +:+ str_of_Z (path_id obj) +:+ ".txt")
           else outpath in
         write_unencodable outpath >>
         ret true
     | ScriptBytes raw =>
         let outpath := os_path_join output_dir (name +:+ ".bytes") in
         let* taken := path_exists outpath in
         let outpath :=
           if taken then
             os_path_join output_dir
               (name +:+ "_" +:+ str_of_Z (path_id obj) +:+ ".bytes")
           else outpath in
         write_file outpath raw >>
         ret true
     end)
    (fun _ => ret false).

Definition extract_font (obj : AssetObject) (output_dir : string)
  : Py bool :=
  let* data := eval (read obj) in
  try_except
    (let font_data := m_FontData data in
     if negb (bool_decide (font_data = [])) then
       let name :=
         safe_filename
           (str_or (m_Name data) ("font_" +:+ str_of_Z (path_id obj))) in
       let ext :=
         if bool_decide (take 4 font_data = b "OTTO") then ".otf"
         else ".ttf" in
       let outpath := os_path_join output_dir (name +:+ ext) in
       let* taken := path_exists outpath in
       let outpath :=
         if taken then
           os_path_join output_dir
             (name +:+ "_" +:+ str_of_Z (path_id obj) +:+ ext)
         else outpath in
       write_file outpath font_data >>
       ret true
     else ret false)
    (fun _ => ret false).

Definition extract_sprite (obj : AssetObject) (output_dir : string)
  : Py bool :=
  let* data := eval (read obj) in
  try_except
    (let* img := eval (image data) in
     match img with
     | Some img =>
         if (0 <? fst (img_size img)) && (0 <? snd (img_size img)) then
           let name :=
             safe_filename
               (str_or (m_Name data) ("sprite_" +:+ str_of_Z (path_id obj))) in
           let outpath := os_path_join output_dir (name +:+ ".png") in
           let* taken := path_exists outpath in
           let outpath :=
             if taken then
               os_path_join output_dir
                 (name +:+ "_" +:+ str_of_Z (path_id obj) +:+ ".png")
             else outpath in
           image_save img outpath >>
           ret true
         else ret false
     | None => ret false
     end)
    (fun _ => ret false).

Definition extractor := AssetObject -> string -> Py bool.

(** The dictionary [EXTRACTORS], in the order it is written. *)
Definition EXTRACTORS : list (string * extractor) :=
  [("Texture2D", extract_texture2d);
   ("Mesh", extract_mesh);
   ("AudioClip", extract_audioclip);
   ("TextAsset", extract_textasset);
   ("Font", extract_font);
   ("Sprite", extract_sprite)].

(** [EXTRACTORS.keys()]. *)
Definition EXTRACTORS_keys : list string := map fst EXTRACTORS.

(** [EXTRACTORS[type_name]], a [KeyError] when the key is absent. *)
Fixpoint dict_getitem {V} (d : list (string * V)) (key : string)
  : outcome V :=
  match d with
  | [] => Raise (Exception "KeyError")
  | (k, v) :: d' => if bool_decide (k = key) then Ret v
                    else dict_getitem d' key
  end.

Definition extensions : list string :=
  [".bundle"; ".unity3d"; ".assets"; ".resource"].

Definition find_bundles (bundle_dir : string) : Py (list string) :=
  reads (fun w =>
    let bundles :=
      filter (fun f =>
                (bool_decide (lower (suffix f) ∈ extensions)
                 || (bool_decide (suffix f = "") && (100 <? st_size f w)))
                = true)
             (rglob_files bundle_dir w) in
    let bundles :=
      if bool_decide (bundles = []) then
        filter (fun f => (100 <? st_size f w) = true)
               (rglob_files bundle_dir w)
      else bundles in
    sorted bundles).

(** *** The command line

    The interface declared to [argparse]: two positionals, the options
    [--unity-version]/[-v] and [--types]/[-t] with one value each, and
    the help flag.  Abbreviated options and the spellings [--opt=value]
    and [-oVALUE] are not represented: for a token that begins with [-]
    and is not one of the declared spellings the answer below need not
    be that of [argparse]; the exit status for missing arguments is
    stated for command lines without such tokens.  [parser.error]
    leaves with status 2, the help flag with status 0. *)
Record Args := mkArgs {
  bundle_dir : string;
  output_dir : string;
  unity_version : string;
  types : option string
}.

Inductive parse_result :=
| Parsed (args : Args)
| ParseExit (status : Z).

Definition is_flag (tok : string) : bool := String.prefix "-" tok.

Fixpoint parse_loop (toks positionals : list string)
         (version : string) (types : option string) : parse_result :=
  match toks with
  | [] =>
      match positionals with
      | [bundle_dir; output_dir] =>
          Parsed (mkArgs bundle_dir output_dir version types)
      | _ => ParseExit 2
      end
  | tok :: rest =>
      if bool_decide (tok = "-h") || bool_decide (tok = "--help") then
        ParseExit 0
      else if bool_decide (tok = "--unity-version") || bool_decide (tok = "-v")
      then
        match rest with
        | value :: rest' =>
            if is_flag value then ParseExit 2
            else parse_loop rest' positionals value types
        | [] => ParseExit 2
        end
      else if bool_decide (tok = "--types") || bool_decide (tok = "-t") then
        match rest with
        | value :: rest' =>
            if is_flag value then ParseExit 2
            else parse_loop rest' positionals version (Some value)
        | [] => ParseExit 2
        end
      else if is_flag tok then ParseExit 2
      else parse_loop rest (positionals ++ [tok]) version types
  end.

(** [parser.parse_args()] on [sys.argv]. *)
Definition parse_args (argv : list string) : parse_result :=
  parse_loop (tail argv) [] "2021.3.57f2" None.

(** *** The engine *)

Record Counts := mkCounts { success : nat; failed : nat }.

(** [stats[type_name]] of the [defaultdict]. *)
Definition stats_get (stats : gmap string Counts) (type_name : string)
  : Counts :=
  default (mkCounts 0 0) (stats !! type_name).

(** [stats[type_name]["success"] += 1]. *)
Definition incr_success (type_name : string) (stats : gmap string Counts)
  : gmap string Counts :=
  let c := stats_get stats type_name in
  <[type_name := mkCounts (S (success c)) (failed c)]> stats.

(** [stats[type_name]["failed"] += 1]. *)
Definition incr_failed (type_name : string) (stats : gmap string Counts)
  : gmap string Counts :=
  let c := stats_get stats type_name in
  <[type_name := mkCounts (success c) (S (failed c))]> stats.

(** The set of types to extract, from [args.types]. *)
Definition parse_types (types : option string) : Py (gset string) :=
  match types with
  | Some t =>
      if negb (bool_decide (t = "")) then
        let extract_types : gset string := list_to_set (split_on "," t) in
        let invalid := extract_types ∖ SUPPORTED_TYPES in
        when (negb (bool_decide (invalid = ∅)))
             (print (WarnUnknownTypes (elements invalid))) >>
        ret (extract_types ∩ SUPPORTED_TYPES)
      else ret (list_to_set EXTRACTORS_keys)
  | None => ret (list_to_set EXTRACTORS_keys)
  end.

(** The totals of the summary: the loop over [sorted(stats.keys())]. *)
Definition summary_totals (stats : gmap string Counts) : nat * nat :=
  fold_left
    (fun '(total_success, total_failed) type_name =>
       let s := stats_get stats type_name in
       ((total_success + success s)%nat, (total_failed + failed s)%nat))
    (merge_sort String.le (elements (dom stats)))
    (0%nat, 0%nat).

Section Engine.

(** [UnityPy.load(path).objects], or the exception [UnityPy.load]
    raises; bundle files are not rewritten during a run. *)
Variable UnityPy_load : string -> outcome (list AssetObject).

(** The body of [for obj in env.objects]. *)
Definition process_object (extract_types : gset string)
           (output_dir : string) (stats : gmap string Counts)
           (obj : AssetObject) : Py (gmap string Counts) :=
  let type_name := type_name obj in
  if bool_decide (type_name ∈ extract_types)
     && bool_decide (type_name ∈ EXTRACTORS_keys) then
    let output_subdir := os_path_join output_dir type_name in
    try_except
      (let* extract := eval (dict_getitem EXTRACTORS type_name) in
       let* success := extract obj output_subdir in
       if success : bool then ret (incr_success type_name stats)
       else ret (incr_failed type_name stats))
      (fun _ => ret (incr_failed type_name stats))
  else ret stats.

(** The body of [for i, bundle_file in enumerate(bundles)].  Only
    [UnityPy.load] can raise into the outer handler, so the handler
    resumes with the statistics the bundle was entered with. *)
Definition process_bundle (extract_types : gset string)
           (output_dir : string) (stats : gmap string Counts)
           (bundle_file : string) : Py (gmap string Counts) :=
  try_except
    (let* objects := eval (UnityPy_load bundle_file) in
     fold_m (process_object extract_types output_dir) objects stats)
    (fun e =>
       let 'Exception msg := e in
       when (negb (contains "bundle" (lower msg)
                   || contains "unity" (lower msg)))
            (print (MsgLoadError (name bundle_file))) >>
       ret stats).

(** [main] after the arguments are parsed, up to the statistics. *)
Definition run (args : Args) : Py (gmap string Counts) :=
  let* extract_types := parse_types (types args) in
  for_each (elements extract_types)
           (fun type_name =>
              makedirs (os_path_join (output_dir args) type_name)) >>
  let* bundles := find_bundles (bundle_dir args) in
  fold_m (process_bundle extract_types (output_dir args)) bundles ∅.

(** [main], as the status handed to [sys.exit]. *)
Definition main (argv : list string) : Py Z :=
  match parse_args argv with
  | ParseExit status => ret status
  | Parsed args =>
      let* stats := run args in
      ret 0
  end.

End Engine.

End ExtractAssets.

(** ** extract_textures.py *)
Module ExtractTextures.

(** The same text as in [extract_assets.py]. *)
Definition safe_filename : string -> string := ExtractAssets.safe_filename.

(** The same function as in [extract_assets.py], its two nested
    conditions joined by [and]. *)
Definition find_bundles : string -> Py (list string) :=
  ExtractAssets.find_bundles.

Record Args := mkArgs {
  bundle_dir : string;
  output_dir : string;
  unity_version : string;
  min_size : Z
}.

Record Counters := mkCounters {
  extracted : nat;
  failed : nat;
  skipped : nat
}.

Section Engine.

Variable UnityPy_load : string -> outcome (list AssetObject).

(** The body of [for obj in env.objects]; [continue] is the return of
    the counters. *)
Definition process_object (args : Args) (c : Counters)
           (obj : AssetObject) : Py Counters :=
  if bool_decide (type_name obj = "Texture2D") then
    try_except
      (let* data := eval (read obj) in
       if (0 <? min_size args)
          && ((m_Width data <? min_size args)
              && (m_Height data <? min_size args))
       then ret (mkCounters (extracted c) (failed c) (S (skipped c)))
       else
         let* img := eval (image data) in
         match img with
         | Some img =>
             if (0 <? fst (img_size img)) && (0 <? snd (img_size img))
             then
               let name :=
                 safe_filename
                   (str_or (m_Name data)
                           ("texture_" +:+ str_of_Z (path_id obj))) in
               let outpath :=
                 os_path_join (output_dir args)
                   (name +:+ "_" +:+ str_of_Z (m_Width data) +:+ "x"
                         +:+ str_of_Z (m_Height data) +:+ ".png") in
               let* taken := path_exists outpath in
               let outpath :=
                 if taken then
                   os_path_join (output_dir args)
                     (name +:+ "_" +:+ str_of_Z (m_Width data) +:+ "x"
                           +:+ str_of_Z (m_Height data) +:+ "_"
                           +:+ str_of_Z (path_id obj) +:+ ".png")
                 else outpath in
               image_save img outpath >>
               ret (mkCounters (S (extracted c)) (failed c) (skipped c))
             else ret (mkCounters (extracted c) (S (failed c)) (skipped c))
         | None => ret (mkCounters (extracted c) (S (failed c)) (skipped c))
         end)
      (fun _ => ret (mkCounters (extracted c) (S (failed c)) (skipped c)))
  else ret c.

Definition process_bundle (args : Args) (c : Counters)
           (bundle_file : string) : Py Counters :=
  try_except
    (let* objects := eval (UnityPy_load bundle_file) in
     fold_m (process_object args) objects c)
    (fun _ => ret c).

(** [main] after the arguments are parsed, up to the counters. *)
Definition run (args : Args) : Py Counters :=
  makedirs (output_dir args) >>
  let* bundles := find_bundles (bundle_dir args) in
  fold_m (process_bundle args) bundles (mkCounters 0 0 0).

End Engine.

End ExtractTextures.

(** * Vocabulary of the statements

    What the properties below speak of: the files and messages an
    operation is expected to leave, the paths an exporter computes, the
    objects a run counts, and the sample data of the examples. *)

(** ** For the header normaliser *)
Module StripCfsSpec.
Import StripCfs.

(** The messages a header-carrying file makes [strip_cfs_header] print. *)
Definition header_warnings (input_path : string) (content : bytes)
  : list message :=
  (if startswith (drop 32 content) UNITYFS_MAGIC then []
   else [WarnNotUnityFS input_path])
  ++ (if bool_decide (SHA1.digest (drop 32 content) = take 20 (drop 12 content))
      then [] else [WarnSha1Mismatch input_path]).

(** A file made of a header (magic, version 1, digest field zeroed)
    and the payload [payload]. *)
Definition with_zero_digest (payload : bytes) : bytes :=
  CFS_MAGIC ++ [x01; x00; x00; x00] ++ repeat x00 20 ++ payload.

End StripCfsSpec.

(** ** For bundle discovery *)
Module DiscoverySpec.
Import Pathlib ExtractAssets.

(** The rule of the first pass of [find_bundles]. *)
Definition qualifies (w : World) (f : string) : Prop :=
  lower (suffix f) ∈ extensions \/ (suffix f = "" /\ 100 < st_size f w).

(** The two passes of [find_bundles]. *)
Definition first_pass (root : string) (w : World) : list string :=
  filter (fun f =>
            (bool_decide (lower (suffix f) ∈ extensions)
             || (bool_decide (suffix f = "") && (100 <? st_size f w)))
            = true)
         (rglob_files root w).

Definition fallback_pass (root : string) (w : World) : list string :=
  filter (fun f => (100 <? st_size f w) = true) (rglob_files root w).

End DiscoverySpec.

(** ** For the exporters *)
Module ExporterSpec.
Import ExtractAssets.

(** The name, the first path and the path with the identifier that
    the texture exporter computes. *)
Definition texture_name (obj : AssetObject) (data : ObjectData) : string :=
  safe_filename (str_or (m_Name data) ("texture_" +:+ str_of_Z (path_id obj))).

Definition texture_path (output_dir : string) (obj : AssetObject)
           (data : ObjectData) : string :=
  os_path_join output_dir
    (texture_name obj data +:+ "_" +:+ str_of_Z (m_Width data) +:+ "x"
       +:+ str_of_Z (m_Height data) +:+ ".png").

Definition texture_path_with_id (output_dir : string) (obj : AssetObject)
           (data : ObjectData) : string :=
  os_path_join output_dir
    (texture_name obj data +:+ "_" +:+ str_of_Z (m_Width data) +:+ "x"
       +:+ str_of_Z (m_Height data) +:+ "_" +:+ str_of_Z (path_id obj)
       +:+ ".png").

(** The first path of the exporters other than the texture one, and
    the path with the identifier. *)
Definition named_path (output_dir kind : string) (obj : AssetObject)
           (name ext : string) : string :=
  os_path_join output_dir
    (safe_filename (str_or name (kind +:+ str_of_Z (path_id obj))) +:+ ext).

Definition named_path_with_id (output_dir kind : string) (obj : AssetObject)
           (name ext : string) : string :=
  os_path_join output_dir
    (safe_filename (str_or name (kind +:+ str_of_Z (path_id obj)))
       +:+ "_" +:+ str_of_Z (path_id obj) +:+ ext).

(** *** What a successful export writes

    For an object that an exporter turns into one file: the path
    computed first, the path with the identifier, and the content. *)
Definition plan : Type := string * string * bytes.

Definition planner : Type :=
  string -> AssetObject -> ObjectData -> option plan.

Definition image_plan (paths : string * string) (data : ObjectData)
  : option plan :=
  match image data with
  | Ret (Some img) =>
      if (0 <? fst (img_size img)) && (0 <? snd (img_size img)) then
        match png img with
        | Ret encoded => Some (paths, encoded)
        | Raise _ => None
        end
      else None
  | _ => None
  end.

Definition texture_plan : planner := fun output_dir obj data =>
  image_plan (texture_path output_dir obj data,
              texture_path_with_id output_dir obj data)
             data.

Definition sprite_plan : planner := fun output_dir obj data =>
  image_plan
    (named_path output_dir "sprite_" obj (m_Name data) ".png",
     named_path_with_id output_dir "sprite_" obj (m_Name data) ".png")
    data.

Definition mesh_plan : planner := fun output_dir obj data =>
  match export data with
  | Ret mesh_data =>
      if bool_decide (mesh_data = "") then None
      else Some (named_path output_dir "mesh_" obj (m_Name data) ".obj",
                 named_path_with_id output_dir "mesh_" obj (m_Name data) ".obj",
                 list_byte_of_string mesh_data)
  | Raise _ => None
  end.

(** An audio clip with one sample. *)
Definition audio_plan : planner := fun output_dir obj data =>
  match samples data with
  | Ret [(name_str, audio_data)] =>
      Some (named_path output_dir "audio_" obj name_str (audio_ext audio_data),
            named_path_with_id output_dir "audio_" obj name_str
                               (audio_ext audio_data),
            audio_data)
  | _ => None
  end.

Definition text_plan : planner := fun output_dir obj data =>
  match m_Script data with
  | ScriptStr text =>
      Some (named_path output_dir "text_" obj (m_Name data) ".txt",
            named_path_with_id output_dir "text_" obj (m_Name data) ".txt",
            list_byte_of_string text)
  | ScriptUnencodable => None
  | ScriptBytes raw =>
      Some (named_path output_dir "text_" obj (m_Name data) ".bytes",
            named_path_with_id output_dir "text_" obj (m_Name data) ".bytes",
            raw)
  end.

Definition font_ext (font_data : bytes) : string :=
  if bool_decide (take 4 font_data = b "OTTO") then ".otf" else ".ttf".

Definition font_plan : planner := fun output_dir obj data =>
  if bool_decide (m_FontData data = []) then None
  else Some (named_path output_dir "font_" obj (m_Name data)
                        (font_ext (m_FontData data)),
             named_path_with_id output_dir "font_" obj (m_Name data)
                                (font_ext (m_FontData data)),
             m_FontData data).

(** [EXTRACTORS], each exporter with its plan. *)
Definition planned_extractors : list (string * extractor * planner) :=
  [("Texture2D", extract_texture2d, texture_plan);
   ("Mesh", extract_mesh, mesh_plan);
   ("AudioClip", extract_audioclip, audio_plan);
   ("TextAsset", extract_textasset, text_plan);
   ("Font", extract_font, font_plan);
   ("Sprite", extract_sprite, sprite_plan)].

(** The world after [content] is written where the plan says. *)
Definition written (w : World) (first with_id : string) (content : bytes)
  : World :=
  mkWorld (<[(if bool_decide (is_Some (files w !! first))
              then with_id else first) := content]> (files w))
          (stdout w).

(** *** Failures before the output file is opened

    What makes each exporter return [False] before it opens its output
    file: no image, an image without width or height, or a decode
    error, for the texture and the sprite; an export that raises or is
    empty for the mesh; samples that raise or are none for the audio
    clip; empty data for the font.  The text exporter opens its file
    whatever the script is. *)
Definition image_missing (data : ObjectData) : bool :=
  match image data with
  | Ret (Some img) =>
      negb ((0 <? fst (img_size img)) && (0 <? snd (img_size img)))
  | Ret None => true
  | Raise _ => true
  end.

Definition mesh_missing (data : ObjectData) : bool :=
  match export data with
  | Ret mesh_data => bool_decide (mesh_data = "")
  | Raise _ => true
  end.

Definition samples_missing (data : ObjectData) : bool :=
  match samples data with
  | Ret items => bool_decide (items = [])
  | Raise _ => true
  end.

Definition font_missing (data : ObjectData) : bool :=
  bool_decide (m_FontData data = []).

Definition text_missing (data : ObjectData) : bool := false.

(** [EXTRACTORS], each exporter with its test. *)
Definition early_failures
  : list (string * extractor * (ObjectData -> bool)) :=
  [("Texture2D", extract_texture2d, image_missing);
   ("Mesh", extract_mesh, mesh_missing);
   ("AudioClip", extract_audioclip, samples_missing);
   ("TextAsset", extract_textasset, text_missing);
   ("Font", extract_font, font_missing);
   ("Sprite", extract_sprite, image_missing)].

(** An object whose [read()] raises, a texture without image, a text
    that UTF-8 cannot encode and a sprite whose encoding fails. *)
Definition failing_read : AssetObject :=
  mkAssetObject "Mesh" 7 (Raise (Exception "truncated object")).

Definition without_image_data : ObjectData :=
  mkObjectData "blank" 0 0 (Ret None)
    (Raise (Exception "not a mesh")) (Ret []) (ScriptStr "") [].

Definition without_image : AssetObject :=
  mkAssetObject "Texture2D" 3 (Ret without_image_data).



End ExporterSpec.

(** ** For the texture tool *)
Module TextureToolSpec.
Import ExtractTextures ExporterSpec.

(** The test of the minimum-size filter. *)
Definition below_min_size (args : Args) (data : ObjectData) : Prop :=
  m_Width data < min_size args /\ m_Height data < min_size args.

(** A texture named [icon], 32 by 32, and what its [read()] gives. *)
Definition icon (path_id : Z) (encoded : string) : AssetObject :=
  mkAssetObject "Texture2D" path_id
    (Ret (mkObjectData "icon" 32 32
            (Ret (Some (mkImage (32, 32) (Ret (b encoded)))))
            (Raise (Exception "not a mesh")) (Ret []) (ScriptStr "") [])).

Definition icon_data (encoded : string) : ObjectData :=
  mkObjectData "icon" 32 32
    (Ret (Some (mkImage (32, 32) (Ret (b encoded)))))
    (Raise (Exception "not a mesh")) (Ret []) (ScriptStr "") [].

(** A texture named [banner], 256 by 16. *)
Definition banner_data : ObjectData :=
  mkObjectData "banner" 256 16
    (Ret (Some (mkImage (256, 16) (Ret (b "png")))))
    (Raise (Exception "not a mesh")) (Ret []) (ScriptStr "") [].

Definition banner : AssetObject :=
  mkAssetObject "Texture2D" 5 (Ret banner_data).

End TextureToolSpec.

(** ** For the extraction engine *)
Module EngineSpec.
Import ExtractAssets.

(** The increments recorded for one type. *)
Definition bucket (stats : gmap string Counts) (type_name : string) : nat :=
  (success (stats_get stats type_name) + failed (stats_get stats type_name))%nat.

(** The increments recorded for all types. *)
Definition grand_total (stats : gmap string Counts) : nat :=
  sum_list_with (bucket stats) (elements (dom stats)).

(** One increment: [stats[type_name]["success"] += 1] or
    [stats[type_name]["failed"] += 1]. *)
Definition one_increment (type_name : string)
           (stats stats' : gmap string Counts) : Prop :=
  stats' = incr_success type_name stats
  \/ stats' = incr_failed type_name stats.

(** The test of [process_object]: the type is requested and an
    exporter is registered for it. *)
Definition dispatched (extract_types : gset string) (obj : AssetObject)
  : bool :=
  bool_decide (type_name obj ∈ extract_types)
  && bool_decide (type_name obj ∈ EXTRACTORS_keys).

(** The objects counted in the bucket of [t]. *)
Definition counted (extract_types : gset string) (t : string)
           (objects : list AssetObject) : nat :=
  length (filter (fun obj => dispatched extract_types obj = true
                             /\ type_name obj = t) objects).

(** The objects a bundle file contributes to a run. *)
Definition bundle_objects (UnityPy_load : string -> outcome (list AssetObject))
           (bundle_file : string) : list AssetObject :=
  match UnityPy_load bundle_file with
  | Ret objects => objects
  | Raise _ => []
  end.

(** The objects of a run, [N] being their number. *)
Definition run_objects (UnityPy_load : string -> outcome (list AssetObject))
           (bundles : list string) : list AssetObject :=
  concat (map (bundle_objects UnityPy_load) bundles).

(** An object of a supported type that has no exporter. *)
Definition animation_clip : AssetObject :=
  mkAssetObject "AnimationClip" 11 (Raise (Exception "no reader")).

End EngineSpec.

(** ** For the batch mode of the header normaliser *)
Module StripCfsBatchSpec.
Import StripCfs.

(** The output file [process_directory] derives for an input file. *)
Definition out_file_of (input_dir output_dir filepath : string) : string :=
  os_path_join output_dir (Pathlib.relative_to filepath input_dir).

(** The counters of [process_directory] add up. *)
Definition accounted (stats : Stats) : Prop :=
  total stats
  = (cfs_stripped stats + already_standard stats + errors stats)%nat.

(** The body of the loop of [process_directory]. *)
Definition process_file (input_dir output_dir : string)
           (stats : Stats) (filepath : string) : Py Stats :=
  let stats :=
    mkStats (cfs_stripped stats) (already_standard stats)
            (errors stats) (S (total stats)) in
  let rel_path := Pathlib.relative_to filepath input_dir in
  let out_file := os_path_join output_dir rel_path in
  try_except
    (let* was_cfs := strip_cfs_header filepath out_file in
     if was_cfs then
       print (MsgCfsStripped rel_path) >>
       ret (mkStats (S (cfs_stripped stats)) (already_standard stats)
                    (errors stats) (total stats))
     else
       ret (mkStats (cfs_stripped stats) (S (already_standard stats))
                    (errors stats) (total stats)))
    (fun e =>
       print (MsgError rel_path) >>
       ret (mkStats (cfs_stripped stats) (already_standard stats)
                    (S (errors stats)) (total stats))).

(** A file that has the alternate magic and fewer than 12 bytes. *)
Definition truncated_header (w : World) (path : string) : bool :=
  match files w !! path with
  | Some content =>
      bool_decide (take 8 content = CFS_MAGIC)
      && bool_decide (length content < 12)%nat
  | None => false
  end.

End StripCfsBatchSpec.

(** ** For the order of discovery *)
Module DiscoveryOrderSpec.
Import Pathlib ExtractAssets.

(** [find_bundles] as a function of what [rglob] yields, in the order
    it yields it. *)
Definition find_bundles_from (listing : list string) (w : World)
  : list string :=
  let bundles :=
    filter (fun f =>
              (bool_decide (lower (suffix f) ∈ extensions)
               || (bool_decide (suffix f = "") && (100 <? st_size f w)))
              = true)
           listing in
  let bundles :=
    if bool_decide (bundles = []) then
      filter (fun f => (100 <? st_size f w) = true) listing
    else bundles in
  sorted bundles.

End DiscoveryOrderSpec.

(** ** For the places an extraction writes to *)
Module ConfinementSpec.

(** A file name without separator. *)
Fixpoint no_slash (name : string) : bool :=
  match name with
  | EmptyString => true
  | String c rest => negb (Ascii.eqb c "/") && no_slash rest
  end.

(** The path is that of a file that lies directly in [output_dir]. *)
Definition directly_in (output_dir path : string) : Prop :=
  exists name, no_slash name = true /\ path = os_path_join output_dir name.

(** Between [w] and [w'], only files at paths of [allowed] changed. *)
Definition only_in (allowed : string -> Prop) (w w' : World) : Prop :=
  forall p, files w' !! p = files w !! p \/ allowed p.

(** The statement changes only files at paths of [allowed]. *)
Definition confined {A} (allowed : string -> Prop) (m : Py A) : Prop :=
  forall w, only_in allowed w (m w).1.

(** The path is that of a file that lies directly in the directory the
    engine of [extract_assets.py] keeps for a type that is requested
    and has an exporter. *)
Definition in_type_dir (requested : gset string) (output_dir path : string)
  : Prop :=
  exists t, t ∈ requested /\ t ∈ ExtractAssets.EXTRACTORS_keys
            /\ directly_in (os_path_join output_dir t) path.

(** Every file of [w] is still there in [w'], with whatever content. *)
Definition keeps_files (w w' : World) : Prop :=
  forall p, is_Some (files w !! p) -> is_Some (files w' !! p).

(** Every step of the statement is within the relation [R]. *)
Definition respects {A} (R : World -> World -> Prop) (m : Py A) : Prop :=
  forall w, R w (m w).1.

End ConfinementSpec.

(** ** For the results of the exporters *)
Module ResultSpec.
Import ExtractAssets ExporterSpec.

(** The audio clip decodes to at least one sample. *)
Definition has_samples (data : ObjectData) : Prop :=
  exists items, samples data = Ret items /\ items <> [].

(** The characters [safe_filename] keeps. *)
Definition safe_char (c : ascii) : bool :=
  isalnum c || in_dot_underscore_dash c.

(** An audio clip of three samples whose names differ and are made the
    same by [safe_filename]. *)
Definition three_samples : AssetObject :=
  mkAssetObject "AudioClip" 5
    (Ret (mkObjectData "clip" 0 0 (Ret None)
            (Raise (Exception "not a mesh"))
            (Ret [("a b", b "OggS1"); ("a/b", b "OggS2"); ("a?b", b "OggS3")])
            (ScriptStr "") [])).

End ResultSpec.

(** ** For the counters of the texture tool *)
Module TextureCountSpec.
Import ExtractTextures.



(** The minimum-size filter lets the object go: [continue] is reached. *)
Definition skips (args : Args) (obj : AssetObject) : bool :=
  match read obj with
  | Ret data =>
      (0 <? min_size args)
      && ((m_Width data <? min_size args) && (m_Height data <? min_size args))
  | Raise _ => false
  end.

(** The counters after an object that is not skipped. *)
Definition count_export (c : Counters) (result : outcome bool) : Counters :=
  match result with
  | Ret true => mkCounters (S (extracted c)) (failed c) (skipped c)
  | _ => mkCounters (extracted c) (S (failed c)) (skipped c)
  end.

End TextureCountSpec.

(** ** For the type selection and for bundles that do not load *)
Module SelectionSpec.
Import ExtractAssets.

(** The names of [--types], split at the commas. *)
Definition requested_names (t : string) : list string := split_on "," t.

(** The message of the exception makes the engine stay silent. *)
Definition silenced (msg : string) : bool :=
  contains "bundle" (lower msg) || contains "unity" (lower msg).

(** A parser that loads nothing. *)
Definition load_nothing (msg : string) : string -> outcome (list AssetObject) :=
  fun _ => Raise (Exception msg).

End SelectionSpec.

(** * Properties *)

(** ** Digest test vectors (FIPS 180-4, appendix) *)

Example sha1_abc :
  SHA1.digest (b "abc")
  = [xa9; x99; x3e; x36; x47; x06; x81; x6a; xba; x3e;
     x25; x71; x78; x50; xc2; x6c; x9c; xd0; xd8; x9d].
Proof. vm_compute. reflexivity. Qed.

Example sha1_empty :
  SHA1.digest []
  = [xda; x39; xa3; xee; x5e; x6b; x4b; x0d; x32; x55;
     xbf; xef; x95; x60; x18; x90; xaf; xd8; x07; x09].
Proof. vm_compute. reflexivity. Qed.

Example sha1_two_blocks :
  SHA1.digest (b "abcdbcdecdefdefgefghfghighijhijkijkljklmklmnlmnomnopnopq")
  = [x84; x98; x3e; x44; x1c; x3b; xd2; x6e; xba; xae;
     x4a; xa1; xf9; x51; x29; xe5; xe5; x46; x70; xf1].
Proof. vm_compute. reflexivity. Qed.

(** ** The header normaliser *)
Module StripCfsFacts.
Import StripCfsSpec.
Import StripCfs.

Lemma struct_unpack_I_four (data : bytes) :
  length data = 4%nat -> exists v, struct_unpack_I data = Ret v.
Proof.
  destruct data as [|b0 [|b1 [|b2 [|b3 [|b4 data]]]]]; simpl; try discriminate.
  intros _. eexists. reflexivity.
Qed.

Lemma struct_unpack_I_short (data : bytes) :
  (length data < 4)%nat -> exists e, struct_unpack_I data = Raise e.
Proof.
  destruct data as [|b0 [|b1 [|b2 [|b3 data]]]]; simpl; try lia;
    intros _; eexists; reflexivity.
Qed.

(** A file with the alternate magic and a whole version field. *)
Lemma strip_cfs_header_stripped w input_path output_path content :
  files w !! input_path = Some content ->
  take 8 content = CFS_MAGIC ->
  (12 <= length content)%nat ->
  strip_cfs_header input_path output_path w
  = (mkWorld (<[output_path := drop 32 content]> (files w))
             (stdout w ++ header_warnings input_path content),
     Ret true).
Proof.
  intros Hin Hmagic Hlen.
  unfold strip_cfs_header, bind at 1, open_rb. rewrite Hin.
  unfold file_read, file_read_all. rewrite Hmagic.
  rewrite bool_decide_eq_true_2 by reflexivity.
  destruct (struct_unpack_I_four (take 4 (drop 8 content))) as [v Hv].
  { rewrite length_take, length_drop. lia. }
  unfold bind at 1, eval. rewrite Hv.
  rewrite !drop_drop. change (8 + 4)%nat with 12%nat.
  change (12 + 20)%nat with 32%nat.
  unfold header_warnings, bind, when, print, makedirs, write_file, ret.
  destruct w as [fs out]; simpl.
  destruct (startswith _ _); simpl;
    destruct (bool_decide _); simpl;
    rewrite <- ?app_assoc, ?app_nil_r; reflexivity.
Qed.

(** A file with the alternate magic cut before the end of the version. *)
Lemma strip_cfs_header_truncated w input_path output_path content :
  files w !! input_path = Some content ->
  take 8 content = CFS_MAGIC ->
  (length content < 12)%nat ->
  exists e, strip_cfs_header input_path output_path w = (w, Raise e).
Proof.
  intros Hin Hmagic Hlen.
  unfold strip_cfs_header, bind at 1, open_rb. rewrite Hin.
  unfold file_read, file_read_all. rewrite Hmagic.
  rewrite bool_decide_eq_true_2 by reflexivity.
  destruct (struct_unpack_I_short (take 4 (drop 8 content))) as [e He].
  { rewrite length_take, length_drop. lia. }
  unfold bind at 1, eval. rewrite He. exists e. reflexivity.
Qed.

(** A file without the alternate magic. *)
Lemma strip_cfs_header_copied w input_path output_path content :
  files w !! input_path = Some content ->
  take 8 content <> CFS_MAGIC ->
  strip_cfs_header input_path output_path w
  = (mkWorld (<[output_path := content]> (files w)) (stdout w), Ret false).
Proof.
  intros Hin Hmagic.
  unfold strip_cfs_header, bind at 1, open_rb. rewrite Hin.
  unfold file_read, file_read_all.
  rewrite bool_decide_eq_false_2 by assumption.
  reflexivity.
Qed.

Lemma unityfs_is_not_cfs (data : bytes) :
  startswith data UNITYFS_MAGIC = true -> take 8 data <> CFS_MAGIC.
Proof.
  unfold startswith. intros H%bool_decide_eq_true_1 Hc.
  assert (Hp : take 7 (take 8 data) = take 7 data)
    by (rewrite take_take; reflexivity).
  rewrite Hc in Hp. simpl in H. rewrite H in Hp. discriminate Hp.
Qed.

(** C1, as stated, fails: the payload after the header is written as
    it is, also when it does not begin with the standard magic (the code
    only prints a warning). *)
Lemma normalize_output_magic_counterexample :
  let content := with_zero_digest (b "hello") in
  let w := mkWorld {[ "in.bundle" := content ]} [] in
  take 8 content = CFS_MAGIC
  /\ exists w',
       strip_cfs_header "in.bundle" "out.bundle" w = (w', Ret true)
       /\ files w' !! "out.bundle" = Some (b "hello")
       /\ startswith (b "hello") UNITYFS_MAGIC = false.
Proof.
  split; [reflexivity|].
  eexists. split; [vm_compute; reflexivity|].
  split; vm_compute; reflexivity.
Qed.

(** C1 (amended): for a file that begins with the alternate magic and
    holds the whole 32-byte header, [strip_cfs_header] returns [True]
    and writes the bytes after the header, so the output is 32 bytes
    shorter than the input; the output begins with the standard magic
    when the payload does, and otherwise the warning is printed. *)
Theorem normalize_strips_header w input_path output_path content :
  files w !! input_path = Some content ->
  take 8 content = CFS_MAGIC ->
  (32 <= length content)%nat ->
  exists w',
    strip_cfs_header input_path output_path w = (w', Ret true)
    /\ files w' !! output_path = Some (drop 32 content)
    /\ Z.of_nat (length (drop 32 content)) = Z.of_nat (length content) - 32
    /\ (startswith (drop 32 content) UNITYFS_MAGIC = true
        \/ WarnNotUnityFS input_path ∈ stdout w').
Proof.
  intros Hin Hmagic Hlen.
  eexists. split.
  { apply strip_cfs_header_stripped; [eassumption|assumption|lia]. }
  simpl. split; [apply lookup_insert_eq|].
  split; [rewrite length_drop; lia|].
  unfold header_warnings.
  destruct (startswith (drop 32 content) UNITYFS_MAGIC); [left; reflexivity|].
  right. rewrite !elem_of_app. right. left. apply list_elem_of_here.
Qed.

Lemma normalize_strips_header_witness :
  let payload := b "UnityFS-payload" in
  let w := mkWorld {[ "in.bundle" := with_zero_digest payload ]} [] in
  exists w',
    strip_cfs_header "in.bundle" "out.bundle" w = (w', Ret true)
    /\ files w' !! "out.bundle" = Some (drop 32 (with_zero_digest payload))
    /\ Z.of_nat (length (drop 32 (with_zero_digest payload)))
       = Z.of_nat (length (with_zero_digest payload)) - 32
    /\ (startswith (drop 32 (with_zero_digest payload)) UNITYFS_MAGIC = true
        \/ WarnNotUnityFS "in.bundle" ∈ stdout w').
Proof.
  intros payload w.
  apply (normalize_strips_header w "in.bundle" "out.bundle"
           (with_zero_digest payload)).
  - vm_compute. reflexivity.
  - reflexivity.
  - vm_compute. lia.
Defined.

(** C3: a file that does not begin with the alternate magic is copied
    byte for byte to the output path, and [strip_cfs_header] returns
    [False]. *)
Theorem normalize_passes_through w input_path output_path content :
  files w !! input_path = Some content ->
  take 8 content <> CFS_MAGIC ->
  exists w',
    strip_cfs_header input_path output_path w = (w', Ret false)
    /\ files w' !! output_path = Some content
    /\ stdout w' = stdout w.
Proof.
  intros Hin Hmagic. eexists. split.
  { apply strip_cfs_header_copied; eassumption. }
  simpl. split; [apply lookup_insert_eq|reflexivity].
Qed.

Lemma normalize_passes_through_witness :
  let content := b "UnityFS-already-standard" in
  let w := mkWorld {[ "a.bundle" := content ]} [] in
  exists w',
    strip_cfs_header "a.bundle" "out/a.bundle" w = (w', Ret false)
    /\ files w' !! "out/a.bundle" = Some content
    /\ stdout w' = stdout w.
Proof.
  intros content w.
  apply (normalize_passes_through w "a.bundle" "out/a.bundle" content).
  - vm_compute. reflexivity.
  - vm_compute. discriminate.
Defined.

(** C8, as stated, fails: a payload that itself begins with the
    alternate magic is written by the first run, and the second run
    strips it again. *)
Lemma normalize_twice_counterexample :
  let inner := CFS_MAGIC ++ [x01; x00; x00; x00] in
  let w := mkWorld {[ "in.bundle" := with_zero_digest inner ]} [] in
  exists w1 w2,
    strip_cfs_header "in.bundle" "once.bundle" w = (w1, Ret true)
    /\ files w1 !! "once.bundle" = Some inner
    /\ strip_cfs_header "once.bundle" "twice.bundle" w1 = (w2, Ret true)
    /\ files w2 !! "twice.bundle" = Some []
    /\ inner <> [].
Proof.
  do 2 eexists.
  split; [vm_compute; reflexivity|].
  split; [vm_compute; reflexivity|].
  split; [vm_compute; reflexivity|].
  split; [vm_compute; reflexivity|discriminate].
Qed.

(** C8 (amended): when the output of a first run does not itself begin
    with the alternate magic, a second run over that output returns
    [False] and writes it back byte for byte.  The condition holds
    whenever the first run copied its input; after a strip it is the
    condition on the payload (see [unityfs_is_not_cfs]). *)
Theorem normalize_twice_is_pass_through
    w input_path output_path output_path2 content :
  files w !! input_path = Some content ->
  (take 8 content = CFS_MAGIC ->
   (12 <= length content)%nat /\ take 8 (drop 32 content) <> CFS_MAGIC) ->
  exists w1 stripped once w2,
    strip_cfs_header input_path output_path w = (w1, Ret stripped)
    /\ files w1 !! output_path = Some once
    /\ strip_cfs_header output_path output_path2 w1 = (w2, Ret false)
    /\ files w2 !! output_path2 = Some once.
Proof.
  intros Hin Hpayload.
  destruct (decide (take 8 content = CFS_MAGIC)) as [Hmagic|Hmagic].
  - destruct (Hpayload Hmagic) as [Hlen Hinner].
    do 4 eexists. split.
    { apply strip_cfs_header_stripped; eassumption. }
    split; [apply lookup_insert_eq|].
    split.
    { apply strip_cfs_header_copied; [apply lookup_insert_eq|exact Hinner]. }
    apply lookup_insert_eq.
  - do 4 eexists. split.
    { apply strip_cfs_header_copied; eassumption. }
    split; [apply lookup_insert_eq|].
    split.
    { apply strip_cfs_header_copied; [apply lookup_insert_eq|exact Hmagic]. }
    apply lookup_insert_eq.
Qed.

Lemma normalize_twice_is_pass_through_witness :
  let payload := b "UnityFS-payload" in
  let w := mkWorld {[ "in.bundle" := with_zero_digest payload ]} [] in
  exists w1 stripped once w2,
    strip_cfs_header "in.bundle" "once.bundle" w = (w1, Ret stripped)
    /\ files w1 !! "once.bundle" = Some once
    /\ strip_cfs_header "once.bundle" "twice.bundle" w1 = (w2, Ret false)
    /\ files w2 !! "twice.bundle" = Some once.
Proof.
  intros payload w.
  apply (normalize_twice_is_pass_through w "in.bundle" "once.bundle"
           "twice.bundle" (with_zero_digest payload)).
  - vm_compute. reflexivity.
  - intros _. split; [vm_compute; lia|vm_compute; discriminate].
Defined.

(** C9: when the digest stored in the header differs from the digest
    recomputed over the payload, [strip_cfs_header] prints the mismatch
    warning (after the magic warning, if that one is due), still writes
    the payload as it is, and returns [True]. *)
Theorem normalize_digest_mismatch_is_warning
    w input_path output_path content :
  files w !! input_path = Some content ->
  take 8 content = CFS_MAGIC ->
  (32 <= length content)%nat ->
  SHA1.digest (drop 32 content) <> take 20 (drop 12 content) ->
  exists w',
    strip_cfs_header input_path output_path w = (w', Ret true)
    /\ files w' !! output_path = Some (drop 32 content)
    /\ stdout w'
       = stdout w
         ++ (if startswith (drop 32 content) UNITYFS_MAGIC then []
             else [WarnNotUnityFS input_path])
         ++ [WarnSha1Mismatch input_path].
Proof.
  intros Hin Hmagic Hlen Hdigest.
  eexists. split.
  { apply strip_cfs_header_stripped; [eassumption|assumption|lia]. }
  simpl. split; [apply lookup_insert_eq|].
  unfold header_warnings.
  rewrite bool_decide_eq_false_2 by assumption. reflexivity.
Qed.

Lemma normalize_digest_mismatch_is_warning_witness :
  let payload := b "UnityFS-payload" in
  let w := mkWorld {[ "in.bundle" := with_zero_digest payload ]} [] in
  exists w',
    strip_cfs_header "in.bundle" "out.bundle" w = (w', Ret true)
    /\ files w' !! "out.bundle" = Some (drop 32 (with_zero_digest payload))
    /\ stdout w'
       = stdout w
         ++ (if startswith (drop 32 (with_zero_digest payload)) UNITYFS_MAGIC
             then [] else [WarnNotUnityFS "in.bundle"])
         ++ [WarnSha1Mismatch "in.bundle"].
Proof.
  intros payload w.
  apply (normalize_digest_mismatch_is_warning w "in.bundle" "out.bundle"
           (with_zero_digest payload)).
  - vm_compute. reflexivity.
  - reflexivity.
  - vm_compute. lia.
  - vm_compute. discriminate.
Defined.

(** The scenario of the design document: magic, version 1, the digest
    of the payload, then the payload; the output is the payload and
    nothing is printed. *)
Example normalize_well_formed_bundle :
  let payload := b "UnityFS-payload" in
  let content :=
    CFS_MAGIC ++ [x01; x00; x00; x00] ++ SHA1.digest payload ++ payload in
  strip_cfs_header "in.bundle" "out.bundle"
                   (mkWorld {[ "in.bundle" := content ]} [])
  = (mkWorld (<[ "out.bundle" := payload ]> {[ "in.bundle" := content ]}) [],
     Ret true).
Proof. vm_compute. reflexivity. Qed.

End StripCfsFacts.

(** ** Bundle discovery *)
Module DiscoveryFacts.
Import DiscoverySpec.
Import Pathlib ExtractAssets.

Lemma qualifies_test w f :
  (bool_decide (lower (suffix f) ∈ extensions)
   || (bool_decide (suffix f = "") && (100 <? st_size f w))) = true
  <-> qualifies w f.
Proof.
  unfold qualifies.
  rewrite orb_true_iff, andb_true_iff, !bool_decide_eq_true, Z.ltb_lt.
  reflexivity.
Qed.

Lemma elem_of_sorted (f : string) (l : list string) : f ∈ sorted l <-> f ∈ l.
Proof. unfold sorted. rewrite merge_sort_Permutation. reflexivity. Qed.

Lemma find_bundles_passes root w :
  find_bundles root w
  = (w, Ret (sorted (if bool_decide (first_pass root w = [])
                     then fallback_pass root w else first_pass root w))).
Proof. reflexivity. Qed.

Lemma elem_of_first_pass root w f :
  f ∈ first_pass root w <-> f ∈ rglob_files root w /\ qualifies w f.
Proof.
  unfold first_pass. rewrite list_elem_of_filter, qualifies_test. tauto.
Qed.

Lemma elem_of_fallback_pass root w f :
  f ∈ fallback_pass root w <-> f ∈ rglob_files root w /\ 100 < st_size f w.
Proof.
  unfold fallback_pass. rewrite list_elem_of_filter, Z.ltb_lt. tauto.
Qed.

Lemma first_pass_nonempty root w :
  first_pass root w <> [] <-> exists g, g ∈ rglob_files root w /\ qualifies w g.
Proof.
  split.
  - destruct (first_pass root w) as [|g l] eqn:E; [congruence|].
    intros _. exists g. apply elem_of_first_pass. rewrite E. left.
  - intros [g Hg%elem_of_first_pass] E. rewrite E in Hg. inversion Hg.
Qed.

Lemma no_extension_not_known : "" ∉ extensions.
Proof.
  intros H.
  assert (Hb : bool_decide ("" ∈ extensions) = true)
    by (apply bool_decide_eq_true_2; exact H).
  vm_compute in Hb. discriminate.
Qed.

(** C5, as stated, fails: when no file passes the extension rule, every
    file above the size threshold is returned, whatever its extension. *)
Lemma discover_fallback_counterexample :
  let w := mkWorld {[ "root/data.bin" := repeat x00 101 ]} [] in
  find_bundles "root" w = (w, Ret ["root/data.bin"])
  /\ ~ qualifies w "root/data.bin".
Proof.
  split; [vm_compute; reflexivity|].
  intros [Hext|[Hsuffix _]].
  - assert (Hb : bool_decide (lower (suffix "root/data.bin") ∈ extensions)
                 = true)
      by (apply bool_decide_eq_true_2; exact Hext).
    vm_compute in Hb. discriminate.
  - vm_compute in Hsuffix. discriminate.
Qed.

(** C5 (amended): [find_bundles] leaves the world as it is and returns
    the files below the root that pass the rule (extension in the known
    set, or no extension and more than 100 bytes) when at least one file
    passes it, and otherwise every file of more than 100 bytes.  In
    particular, next to a [.bundle] file an extensionless file of 0
    bytes is not returned, and the [.bundle] file is. *)
Theorem discover_returns_candidates (root : string) (w : World) :
  exists found,
    find_bundles root w = (w, Ret found)
    /\ ((exists g, g ∈ rglob_files root w /\ qualifies w g) ->
        forall f, f ∈ found <-> f ∈ rglob_files root w /\ qualifies w f)
    /\ (~ (exists g, g ∈ rglob_files root w /\ qualifies w g) ->
        forall f, f ∈ found <-> f ∈ rglob_files root w /\ 100 < st_size f w)
    /\ (forall f g,
          f ∈ rglob_files root w -> lower (suffix f) = ".bundle" ->
          g ∈ rglob_files root w -> suffix g = "" -> st_size g w = 0 ->
          f ∈ found /\ g ∉ found).
Proof.
  eexists. split; [apply find_bundles_passes|].
  assert (Hsome : (exists g, g ∈ rglob_files root w /\ qualifies w g) ->
                  forall f,
                    f ∈ sorted (if bool_decide (first_pass root w = [])
                                then fallback_pass root w
                                else first_pass root w)
                    <-> f ∈ rglob_files root w /\ qualifies w f).
  { intros Hg%first_pass_nonempty f.
    rewrite bool_decide_eq_false_2 by assumption.
    rewrite elem_of_sorted. apply elem_of_first_pass. }
  split; [exact Hsome|]. split.
  - intros Hnone f.
    rewrite bool_decide_eq_true_2.
    + rewrite elem_of_sorted. apply elem_of_fallback_pass.
    + destruct (decide (first_pass root w = [])) as [E|E]; [exact E|].
      exfalso. apply Hnone, first_pass_nonempty, E.
  - intros f g Hf Hfext Hg Hgext Hgsize.
    assert (Hq : qualifies w f).
    { left. rewrite Hfext. unfold extensions. left. }
    split.
    + apply Hsome; eauto.
    + rewrite (Hsome (ex_intro _ f (conj Hf Hq)) g).
      intros [_ [Hext|[_ Hsize]]]; [|lia].
      rewrite Hgext in Hext. exact (no_extension_not_known Hext).
Qed.

(** The scenario of the design document. *)
Example discover_bundle_and_marker :
  let w := mkWorld {[ "root/level.bundle" := b "UnityFS";
                      "root/marker" := [] ]} [] in
  find_bundles "root" w = (w, Ret ["root/level.bundle"]).
Proof. vm_compute. reflexivity. Qed.

(** The batch mode of [strip_cfs.py] applies no size threshold: there
    the empty marker is a candidate as well. *)
Example strip_cfs_takes_marker :
  let w := mkWorld {[ "root/level.bundle" := b "UnityFS";
                      "root/marker" := [] ]} [] in
  exists found,
    StripCfs.candidate_files "root" w = (w, Ret found)
    /\ "root/marker" ∈ found.
Proof. eexists. split; [vm_compute; reflexivity|]. set_solver. Qed.

End DiscoveryFacts.

(** ** The exporters *)
Module ExporterFacts.
Import ExporterSpec.
Import ExtractAssets.

#[local] Arguments image_save : simpl never.
#[local] Arguments os_path_join : simpl never.
#[local] Arguments safe_filename : simpl never.
#[local] Arguments str_of_Z : simpl never.
#[local] Arguments str_or : simpl never.

(** Unfolding of the statement monad. *)
Ltac run_py :=
  unfold bind, try_except, eval, ret, raise, when, reads, path_exists,
    write_text, write_file, remove_file, makedirs, print in *;
  simpl in *.

Lemma image_save_encoded img outpath data w :
  png img = Ret data ->
  image_save img outpath w
  = (mkWorld (<[outpath := data]> (files w)) (stdout w), Ret tt).
Proof.
  intros Hpng. unfold image_save. rewrite Hpng. run_py.
  rewrite insert_insert_eq. reflexivity.
Qed.

(** *** Output paths *)

Lemma safe_char_not_slash (c : ascii) :
  (if isalnum c || in_dot_underscore_dash c then c else "_"%char)
  <> "/"%char.
Proof.
  destruct (isalnum c || in_dot_underscore_dash c) eqn:E; [|discriminate].
  intros ->. vm_compute in E. discriminate.
Qed.

Lemma prefix_slash_cons (c : ascii) (s : string) :
  c <> "/"%char -> String.prefix "/" (String c s) = false.
Proof.
  intros Hc.
  change (String.prefix "/" (String c s))
    with (if ascii_dec "/" c then String.prefix "" s else false).
  destruct (ascii_dec "/" c) as [E|E]; [|reflexivity].
  exfalso. apply Hc. symmetry. exact E.
Qed.

Lemma prefix_dot_cons (ext : string) :
  String.prefix "." ext = true -> exists rest, ext = String "." rest.
Proof.
  destruct ext as [|c ext]; [discriminate|].
  change (String.prefix "." (String c ext))
    with (if ascii_dec "." c then String.prefix "" ext else false).
  destruct (ascii_dec "." c) as [<-|]; [|discriminate].
  intros _. eexists. reflexivity.
Qed.

Lemma safe_filename_not_absolute (name rest : string) :
  String.prefix "/" rest = false ->
  String.prefix "/" (safe_filename name +:+ rest) = false.
Proof.
  intros Hrest. destruct name as [|c name]; [exact Hrest|].
  unfold safe_filename. cbn [list_ascii_of_string map string_of_list_ascii].
  change (String ?c ?s +:+ rest) with (String c (s +:+ rest)).
  apply prefix_slash_cons, safe_char_not_slash.
Qed.

Lemma os_path_join_inj (output_dir x y : string) :
  String.prefix "/" x = false -> String.prefix "/" y = false ->
  os_path_join output_dir x = os_path_join output_dir y -> x = y.
Proof.
  intros Hx Hy. unfold os_path_join. rewrite Hx, Hy.
  destruct (bool_decide (output_dir = "")
            || String.prefix "/" (String.rev output_dir));
    intros H.
  - exact (inj (String.app output_dir) _ _ H).
  - apply (inj (String.app output_dir)) in H.
    exact (inj (String.app "/") _ _ H).
Qed.

(** A name with [_<path_id>] put before the extension differs from the
    name without it. *)
Lemma path_with_id_differs (output_dir name ext id : string) :
  String.prefix "." ext = true ->
  os_path_join output_dir (safe_filename name +:+ ext)
  <> os_path_join output_dir (safe_filename name +:+ "_" +:+ id +:+ ext).
Proof.
  intros [rest ->]%prefix_dot_cons H. apply os_path_join_inj in H.
  - apply (inj (String.app _)) in H. discriminate H.
  - apply safe_filename_not_absolute. reflexivity.
  - apply safe_filename_not_absolute. reflexivity.
Qed.

Lemma texture_path_with_id_differs output_dir obj1 data1 obj2 data2 :
  texture_path output_dir obj1 data1 = texture_path output_dir obj2 data2 ->
  texture_path output_dir obj1 data1
  <> texture_path_with_id output_dir obj2 data2.
Proof.
  intros -> H. unfold texture_path, texture_path_with_id in H.
  apply os_path_join_inj in H;
    [|apply safe_filename_not_absolute; reflexivity..].
  do 5 apply (inj (String.app _)) in H.
  discriminate H.
Qed.

Lemma planned_extractors_are_EXTRACTORS :
  map fst planned_extractors = EXTRACTORS.
Proof. reflexivity. Qed.

Lemma files_written w first with_id content :
  files (written w first with_id content)
  = <[(if bool_decide (is_Some (files w !! first))
       then with_id else first) := content]> (files w).
Proof. reflexivity. Qed.

Lemma extract_texture2d_written obj output_dir w data first with_id content :
  read obj = Ret data ->
  texture_plan output_dir obj data = Some (first, with_id, content) ->
  extract_texture2d obj output_dir w
  = (written w first with_id content, Ret true).
Proof.
  intros Hread Hplan.
  unfold texture_plan, image_plan in Hplan.
  unfold extract_texture2d. rewrite Hread.
  unfold bind, try_except, eval, path_exists, ret.
  destruct (image data) as [[img|]|]; try discriminate.
  destruct ((0 <? (img_size img).1) && (0 <? (img_size img).2));
    [|discriminate].
  destruct (png img) as [encoded|] eqn:Hpng; [|discriminate].
  injection Hplan as <- <- <-. simpl.
  fold (texture_name obj data).
  fold (texture_path output_dir obj data).
  fold (texture_path_with_id output_dir obj data).
  erewrite image_save_encoded by eassumption.
  reflexivity.
Qed.

Lemma extract_sprite_written obj output_dir w data first with_id content :
  read obj = Ret data ->
  sprite_plan output_dir obj data = Some (first, with_id, content) ->
  extract_sprite obj output_dir w
  = (written w first with_id content, Ret true).
Proof.
  intros Hread Hplan.
  unfold sprite_plan, image_plan in Hplan.
  unfold extract_sprite. rewrite Hread.
  unfold bind, try_except, eval, path_exists, ret.
  destruct (image data) as [[img|]|]; try discriminate.
  destruct ((0 <? (img_size img).1) && (0 <? (img_size img).2));
    [|discriminate].
  destruct (png img) as [encoded|] eqn:Hpng; [|discriminate].
  injection Hplan as <- <- <-. simpl.
  fold (named_path output_dir "sprite_" obj (m_Name data) ".png").
  fold (named_path_with_id output_dir "sprite_" obj (m_Name data) ".png").
  erewrite image_save_encoded by eassumption.
  reflexivity.
Qed.

Lemma extract_mesh_written obj output_dir w data first with_id content :
  read obj = Ret data ->
  mesh_plan output_dir obj data = Some (first, with_id, content) ->
  extract_mesh obj output_dir w
  = (written w first with_id content, Ret true).
Proof.
  intros Hread Hplan. unfold mesh_plan in Hplan.
  unfold extract_mesh. rewrite Hread. run_py.
  destruct (export data) as [mesh_data|]; [|discriminate].
  destruct (bool_decide (mesh_data = "")); [discriminate|].
  injection Hplan as <- <- <-. reflexivity.
Qed.

Lemma extract_audioclip_written obj output_dir w data first with_id content :
  read obj = Ret data ->
  audio_plan output_dir obj data = Some (first, with_id, content) ->
  extract_audioclip obj output_dir w
  = (written w first with_id content, Ret true).
Proof.
  intros Hread Hplan. unfold audio_plan in Hplan.
  unfold extract_audioclip. rewrite Hread. run_py.
  destruct (samples data) as [[|[name_str audio_data] [|]]|];
    try discriminate.
  injection Hplan as <- <- <-. reflexivity.
Qed.

Lemma extract_textasset_written obj output_dir w data first with_id content :
  read obj = Ret data ->
  text_plan output_dir obj data = Some (first, with_id, content) ->
  extract_textasset obj output_dir w
  = (written w first with_id content, Ret true).
Proof.
  intros Hread Hplan. unfold text_plan in Hplan.
  unfold extract_textasset. rewrite Hread. run_py.
  destruct (m_Script data); try discriminate;
    injection Hplan as <- <- <-; reflexivity.
Qed.

Lemma extract_font_written obj output_dir w data first with_id content :
  read obj = Ret data ->
  font_plan output_dir obj data = Some (first, with_id, content) ->
  extract_font obj output_dir w
  = (written w first with_id content, Ret true).
Proof.
  intros Hread Hplan. unfold font_plan in Hplan.
  unfold extract_font. rewrite Hread. run_py.
  destruct (bool_decide (m_FontData data = [])); [discriminate|].
  injection Hplan as <- <- <-. reflexivity.
Qed.

Lemma planned_extractor_written
    type_name (extract : extractor) (plan_of : planner)
    obj output_dir w data first with_id content :
  (type_name, extract, plan_of) ∈ planned_extractors ->
  read obj = Ret data ->
  plan_of output_dir obj data = Some (first, with_id, content) ->
  extract obj output_dir w = (written w first with_id content, Ret true).
Proof.
  intros Hin. unfold planned_extractors in Hin.
  repeat (apply elem_of_cons in Hin as [Hin|Hin];
          [injection Hin as -> -> ->|]).
  - apply extract_texture2d_written.
  - apply extract_mesh_written.
  - apply extract_audioclip_written.
  - apply extract_textasset_written.
  - apply extract_font_written.
  - apply extract_sprite_written.
  - inversion Hin.
Qed.

Lemma audio_ext_dot audio_data : String.prefix "." (audio_ext audio_data) = true.
Proof.
  unfold audio_ext. repeat (case_match; try reflexivity).
Qed.

Lemma font_ext_dot font_data : String.prefix "." (font_ext font_data) = true.
Proof. unfold font_ext. case_match; reflexivity. Qed.

Lemma planned_paths_differ
    type_name (extract : extractor) (plan_of : planner)
    obj output_dir data first with_id content :
  (type_name, extract, plan_of) ∈ planned_extractors ->
  plan_of output_dir obj data = Some (first, with_id, content) ->
  first <> with_id.
Proof.
  intros Hin. unfold planned_extractors in Hin.
  repeat (apply elem_of_cons in Hin as [Hin|Hin];
          [injection Hin as -> -> ->|]); [..|inversion Hin].
  - unfold texture_plan, image_plan. repeat case_match; try discriminate.
    intros [= <- <- <-]. apply texture_path_with_id_differs. reflexivity.
  - unfold mesh_plan. repeat case_match; try discriminate.
    intros [= <- <- <-]. apply path_with_id_differs. reflexivity.
  - unfold audio_plan. repeat case_match; try discriminate.
    intros [= <- <- <-]. apply path_with_id_differs, audio_ext_dot.
  - unfold text_plan. case_match; try discriminate; intros [= <- <- <-];
      apply path_with_id_differs; reflexivity.
  - unfold font_plan. case_match; try discriminate.
    intros [= <- <- <-]. apply path_with_id_differs, font_ext_dot.
  - unfold sprite_plan, image_plan. repeat case_match; try discriminate.
    intros [= <- <- <-]. apply path_with_id_differs. reflexivity.
Qed.

(** A plan carried out where the first path is free takes that path. *)
Lemma written_where_free w first with_id content :
  files w !! first = None ->
  files (written w first with_id content) !! first = Some content.
Proof.
  intros Hfree. rewrite files_written, Hfree.
  rewrite bool_decide_eq_false_2 by (intros [? ?]; discriminate).
  apply lookup_insert_eq.
Qed.

(** A plan carried out where the first path is taken leaves that file
    as it is and writes to the path with the identifier. *)
Lemma written_where_taken w first with_id content earlier :
  files w !! first = Some earlier ->
  first <> with_id ->
  files (written w first with_id content) !! first = Some earlier
  /\ files (written w first with_id content) !! with_id = Some content.
Proof.
  intros Htaken Hne. rewrite files_written, Htaken.
  rewrite bool_decide_eq_true_2 by eauto.
  split; [|apply lookup_insert_eq].
  rewrite lookup_insert_ne by (intros E; apply Hne; symmetry; exact E).
  exact Htaken.
Qed.

Lemma for_each_returns {A} (body : A -> Py unit) (l : list A) :
  (forall x w, exists w', body x w = (w', Ret tt)) ->
  forall w, exists w', for_each l body w = (w', Ret tt).
Proof.
  intros Hbody. induction l as [|x l IH]; intros w; simpl.
  - eexists. reflexivity.
  - unfold bind. destruct (Hbody x w) as [w1 Hx]. rewrite Hx. apply IH.
Qed.

Lemma early_failures_are_EXTRACTORS :
  map fst early_failures = EXTRACTORS.
Proof. reflexivity. Qed.






(** The texture without image, exported next to an earlier file. *)
Example export_without_image :
  let w := mkWorld {[ "out/Texture2D/blank_0x0.png" := b "earlier" ]} [] in
  image_missing without_image_data = true
  /\ extract_texture2d without_image "out/Texture2D" w = (w, Ret false).
Proof. split; reflexivity. Qed.

End ExporterFacts.

(** ** The texture tool *)
Module TextureToolFacts.
Import ExporterSpec TextureToolSpec.
Import ExtractTextures ExporterFacts.

#[local] Arguments image_save : simpl never.
#[local] Arguments os_path_join : simpl never.
#[local] Arguments ExtractAssets.safe_filename : simpl never.
#[local] Arguments str_of_Z : simpl never.
#[local] Arguments str_or : simpl never.

Lemma below_min_size_test args data :
  0 < min_size args ->
  ((0 <? min_size args)
   && ((m_Width data <? min_size args) && (m_Height data <? min_size args)))
  = true <-> below_min_size args data.
Proof.
  intros Hmin. unfold below_min_size.
  rewrite !andb_true_iff, !Z.ltb_lt. tauto.
Qed.

Lemma process_object_skips args c obj data w :
  type_name obj = "Texture2D" ->
  read obj = Ret data ->
  0 < min_size args ->
  below_min_size args data ->
  process_object args c obj w
  = (w, Ret (mkCounters (extracted c) (failed c) (S (skipped c)))).
Proof.
  intros Htype Hread Hmin Hbelow.
  unfold process_object. rewrite Htype, Hread.
  rewrite bool_decide_eq_true_2 by reflexivity.
  unfold try_except, bind, eval.
  apply (proj2 (below_min_size_test args data Hmin)) in Hbelow.
  rewrite Hbelow.
  reflexivity.
Qed.

Lemma process_object_exports args c obj data w :
  type_name obj = "Texture2D" ->
  read obj = Ret data ->
  ~ (0 < min_size args /\ below_min_size args data) ->
  exists w',
    process_object args c obj w
    = (w', Ret (mkCounters (S (extracted c)) (failed c) (skipped c)))
    \/ process_object args c obj w
      = (w', Ret (mkCounters (extracted c) (S (failed c)) (skipped c))).
Proof.
  intros Htype Hread Hkeep.
  unfold process_object. rewrite Htype, Hread.
  rewrite bool_decide_eq_true_2 by reflexivity.
  unfold try_except, bind, eval, ret, path_exists.
  destruct ((0 <? min_size args)
            && ((m_Width data <? min_size args)
                && (m_Height data <? min_size args))) eqn:Htest.
  { exfalso. apply Hkeep. unfold below_min_size.
    rewrite !andb_true_iff, !Z.ltb_lt in Htest. tauto. }
  destruct (image data) as [[img|]|e]; simpl; try (eexists; right; reflexivity).
  destruct ((0 <? (img_size img).1) && (0 <? (img_size img).2));
    [|eexists; right; reflexivity].
  match goal with
  | |- context [image_save img ?path w] =>
      destruct (image_save img path w) as [w1 [[]|e]]
  end; eexists; [left|right]; reflexivity.
Qed.

Lemma process_object_written args c obj data w first with_id content :
  type_name obj = "Texture2D" ->
  read obj = Ret data ->
  ~ (0 < min_size args /\ below_min_size args data) ->
  texture_plan (output_dir args) obj data = Some (first, with_id, content) ->
  process_object args c obj w
  = (written w first with_id content,
     Ret (mkCounters (S (extracted c)) (failed c) (skipped c))).
Proof.
  intros Htype Hread Hkeep Hplan.
  unfold texture_plan, image_plan in Hplan.
  unfold process_object. rewrite Htype, Hread.
  rewrite bool_decide_eq_true_2 by reflexivity.
  unfold try_except, bind, eval, ret, path_exists.
  destruct ((0 <? min_size args)
            && ((m_Width data <? min_size args)
                && (m_Height data <? min_size args))) eqn:Htest.
  { exfalso. apply Hkeep. unfold below_min_size.
    rewrite !andb_true_iff, !Z.ltb_lt in Htest. tauto. }
  destruct (image data) as [[img|]|]; try discriminate.
  destruct ((0 <? (img_size img).1) && (0 <? (img_size img).2));
    [|discriminate].
  destruct (png img) as [encoded|] eqn:Hpng; [|discriminate].
  injection Hplan as <- <- <-. simpl.
  unfold safe_filename.
  fold (texture_name obj data).
  fold (texture_path (output_dir args) obj data).
  fold (texture_path_with_id (output_dir args) obj data).
  erewrite image_save_encoded by eassumption.
  reflexivity.
Qed.

(** C10: with a positive minimum size, a Texture2D object is skipped
    exactly when its width and its height are both below the minimum;
    a skipped object changes neither count and writes nothing.  An
    object that is not skipped, one dimension below the minimum or
    none, is exported: it is counted once, as extracted or as failed,
    and when its image is present, has positive width and height and
    is accepted by the encoder, the encoded image is written at the
    computed path (at the path with the identifier when the first is
    taken) and the object is counted as extracted. *)
Theorem min_size_skips_small_textures args c obj data w :
  type_name obj = "Texture2D" ->
  read obj = Ret data ->
  0 < min_size args ->
  exists w' c',
    process_object args c obj w = (w', Ret c')
    /\ (skipped c' = S (skipped c)
        <-> m_Width data < min_size args /\ m_Height data < min_size args)
    /\ (m_Width data < min_size args /\ m_Height data < min_size args ->
        w' = w /\ extracted c' = extracted c /\ failed c' = failed c)
    /\ (~ (m_Width data < min_size args /\ m_Height data < min_size args) ->
        skipped c' = skipped c
        /\ (extracted c' + failed c' = S (extracted c + failed c))%nat
        /\ forall first with_id content,
             texture_plan (output_dir args) obj data
             = Some (first, with_id, content) ->
             w' = written w first with_id content
             /\ extracted c' = S (extracted c)
             /\ failed c' = failed c).
Proof.
  intros Htype Hread Hmin.
  destruct (decide (below_min_size args data)) as [Hbelow|Hkeep].
  - exists w, (mkCounters (extracted c) (failed c) (S (skipped c))).
    split; [apply (process_object_skips args c obj data); assumption|].
    simpl. fold (below_min_size args data).
    split; [tauto|]. split; [tauto|]. intros Hkeep. contradiction.
  - assert (Hkeep' : ~ (0 < min_size args /\ below_min_size args data))
      by tauto.
    destruct (process_object_exports args c obj data w Htype Hread Hkeep')
      as [w' Hrun].
    assert (Hplanned : forall c' first with_id content,
               process_object args c obj w = (w', Ret c') ->
               texture_plan (output_dir args) obj data
               = Some (first, with_id, content) ->
               w' = written w first with_id content
               /\ c' = mkCounters (S (extracted c)) (failed c) (skipped c)).
    { intros c' first with_id content Hc' Hplan.
      rewrite (process_object_written args c obj data w first with_id
                 content Htype Hread Hkeep' Hplan) in Hc'.
      injection Hc' as <- <-. split; reflexivity. }
    destruct Hrun as [Hrun|Hrun];
      eexists _, _; (split; [exact Hrun|]); simpl;
      fold (below_min_size args data);
      (split; [split; [lia|tauto]|]); (split; [tauto|]); intros _;
      (split; [reflexivity|]); (split; [lia|]);
      intros first with_id content Hplan;
      destruct (Hplanned _ first with_id content Hrun Hplan) as [-> Hc'];
      (split; [reflexivity|]); inversion Hc'; simpl; lia.
Qed.

(** C6: two objects of one type for which the exporter computes the
    same output path, the file of the first being at that path.  The
    export of the second finds the path taken and writes to the path with
    [_<path_id>] before the extension, which is a different path;
    afterwards the first path still holds the content of the first object
    and the other path holds the content of the second.  This holds for
    each exporter of [extract_assets.py] and for the loop of
    [extract_textures.py]. *)
Theorem collision_gets_path_with_id
    kind (extract : ExtractAssets.extractor) (plan_of : planner)
    output_dir obj1 obj2 data1 data2
    first with_id1 with_id2 content1 content2 w :
  (kind, extract, plan_of) ∈ planned_extractors ->
  read obj1 = Ret data1 -> read obj2 = Ret data2 ->
  plan_of output_dir obj1 data1 = Some (first, with_id1, content1) ->
  plan_of output_dir obj2 data2 = Some (first, with_id2, content2) ->
  files w !! first = Some content1 ->
  (exists w',
      extract obj2 output_dir w = (w', Ret true)
      /\ first <> with_id2
      /\ files w' !! first = Some content1
      /\ files w' !! with_id2 = Some content2)
  /\ (forall args c,
        plan_of = texture_plan ->
        ExtractTextures.output_dir args = output_dir ->
        type_name obj2 = "Texture2D" ->
        ~ (0 < min_size args /\ below_min_size args data2) ->
        exists w' c',
          process_object args c obj2 w = (w', Ret c')
          /\ extracted c' = S (extracted c)
          /\ first <> with_id2
          /\ files w' !! first = Some content1
          /\ files w' !! with_id2 = Some content2).
Proof.
  intros Hin Hread1 Hread2 Hplan1 Hplan2 Htaken.
  pose proof (planned_paths_differ _ _ _ _ _ _ _ _ _ Hin Hplan2) as Hne.
  destruct (written_where_taken w first with_id2 content2 content1
              Htaken Hne) as [Hfirst Hsecond].
  split.
  - eexists.
    split; [eapply planned_extractor_written; eassumption|]. auto.
  - intros args c -> <- Htype Hkeep.
    eexists _, _.
    split; [apply (process_object_written args c obj2 data2); eassumption|].
    simpl. auto.
Qed.

(** The scenario of the design document: two textures named [icon],
    both 32 by 32, exported into an empty directory. *)
Lemma collision_gets_path_with_id_witness :
  let dir := "out/Texture2D" in
  let w := (ExtractAssets.extract_texture2d (icon 1 "first") dir
              (mkWorld ∅ [])).1 in
  files w !! "out/Texture2D/icon_32x32.png" = Some (b "first")
  /\ exists w',
      ExtractAssets.extract_texture2d (icon 2 "second") dir w = (w', Ret true)
      /\ "out/Texture2D/icon_32x32.png" <> "out/Texture2D/icon_32x32_2.png"
      /\ files w' !! "out/Texture2D/icon_32x32.png" = Some (b "first")
      /\ files w' !! "out/Texture2D/icon_32x32_2.png" = Some (b "second").
Proof.
  intros dir w.
  split; [vm_compute; reflexivity|].
  refine (proj1 (collision_gets_path_with_id
                   "Texture2D" ExtractAssets.extract_texture2d texture_plan
                   dir (icon 1 "first") (icon 2 "second")
                   (icon_data "first") (icon_data "second")
                   "out/Texture2D/icon_32x32.png"
                   "out/Texture2D/icon_32x32_1.png"
                   "out/Texture2D/icon_32x32_2.png"
                   (b "first") (b "second") w _ _ _ _ _ _)).
  - left.
  - reflexivity.
  - reflexivity.
  - vm_compute. reflexivity.
  - vm_compute. reflexivity.
  - vm_compute. reflexivity.
Defined.

(** A texture of 256 by 16 against a minimum of 64: one dimension is
    below the minimum, the texture is exported. *)
Lemma min_size_skips_small_textures_witness :
  let args := mkArgs "bundles" "out" "2021.3.57f2" 64 in
  let c := mkCounters 0 0 0 in
  let w := mkWorld ∅ [] in
  exists w' c',
    process_object args c banner w = (w', Ret c')
    /\ (skipped c' = S (skipped c) <-> 256 < 64 /\ 16 < 64)
    /\ (256 < 64 /\ 16 < 64 ->
        w' = w /\ extracted c' = extracted c /\ failed c' = failed c)
    /\ (~ (256 < 64 /\ 16 < 64) ->
        skipped c' = skipped c
        /\ (extracted c' + failed c' = S (extracted c + failed c))%nat
        /\ forall first with_id content,
             texture_plan "out" banner banner_data
             = Some (first, with_id, content) ->
             w' = written w first with_id content
             /\ extracted c' = S (extracted c)
             /\ failed c' = failed c).
Proof.
  intros args c w.
  apply (min_size_skips_small_textures args c banner banner_data w).
  - reflexivity.
  - reflexivity.
  - reflexivity.
Defined.

(** One dimension below the minimum is not enough to be skipped. *)
Example wide_texture_is_exported :
  let args := mkArgs "bundles" "out" "2021.3.57f2" 64 in
  process_object args (mkCounters 0 0 0) banner (mkWorld ∅ [])
  = (mkWorld {[ "out/banner_256x16.png" := b "png" ]} [],
     Ret (mkCounters 1 0 0)).
Proof. vm_compute. reflexivity. Qed.

(** The small icon against the same minimum is skipped, and nothing is
    written. *)
Example small_texture_is_skipped :
  let args := mkArgs "bundles" "out" "2021.3.57f2" 64 in
  process_object args (mkCounters 0 0 0) (icon 1 "first") (mkWorld ∅ [])
  = (mkWorld ∅ [], Ret (mkCounters 0 0 1)).
Proof. vm_compute. reflexivity. Qed.

End TextureToolFacts.

(** ** The extraction engine *)
Module EngineFacts.
Import EngineSpec.
Import ExtractAssets.

(** *** Counting in the statistics *)

Lemma summary_fold (stats : gmap string Counts) (keys : list string)
      (acc : nat * nat) :
  let r :=
    fold_left
      (fun '(total_success, total_failed) type_name =>
         let s := stats_get stats type_name in
         ((total_success + success s)%nat, (total_failed + failed s)%nat))
      keys acc in
  (r.1 + r.2 = acc.1 + acc.2 + sum_list_with (bucket stats) keys)%nat.
Proof.
  revert acc. induction keys as [|k keys IH]; intros [ts tf]; simpl.
  - lia.
  - specialize (IH ((ts + success (stats_get stats k))%nat,
                    (tf + failed (stats_get stats k))%nat)).
    simpl in IH. rewrite IH. unfold bucket. lia.
Qed.

Lemma summary_totals_grand_total stats :
  ((summary_totals stats).1 + (summary_totals stats).2 = grand_total stats)%nat.
Proof.
  unfold summary_totals, grand_total.
  rewrite (summary_fold stats _ (0%nat, 0%nat)). simpl.
  rewrite merge_sort_Permutation. reflexivity.
Qed.

Lemma sum_list_with_agree {A} (f g : A -> nat) (l : list A) :
  (forall x, x ∈ l -> f x = g x) ->
  sum_list_with f l = sum_list_with g l.
Proof.
  induction l as [|x l IH]; intros H; simpl; [reflexivity|].
  rewrite (H x) by left. rewrite IH; [reflexivity|].
  intros y Hy. apply H. right. exact Hy.
Qed.

Lemma sum_list_with_bump (f g : string -> nat) (t : string) (l : list string) :
  NoDup l -> t ∈ l -> g t = S (f t) ->
  (forall k, k <> t -> g k = f k) ->
  sum_list_with g l = S (sum_list_with f l).
Proof.
  intros Hnd Hin Ht Hother.
  induction Hnd as [|x l Hx Hnd IH]; [inversion Hin|].
  simpl. apply elem_of_cons in Hin as [<-|Hin].
  - rewrite Ht. rewrite (sum_list_with_agree g f l); [lia|].
    intros k Hk. apply Hother. intros ->. exact (Hx Hk).
  - rewrite IH by exact Hin. rewrite Hother; [lia|].
    intros ->. exact (Hx Hin).
Qed.

Lemma bucket_insert_eq stats t c :
  bucket (<[t := c]> stats) t = (success c + failed c)%nat.
Proof. unfold bucket, stats_get. rewrite lookup_insert_eq. reflexivity. Qed.

Lemma bucket_insert_ne stats t c k :
  k <> t -> bucket (<[t := c]> stats) k = bucket stats k.
Proof.
  intros Hne. unfold bucket, stats_get.
  rewrite lookup_insert_ne by (intros E; apply Hne; symmetry; exact E).
  reflexivity.
Qed.

Lemma grand_total_insert stats t c :
  (success c + failed c)%nat = S (bucket stats t) ->
  grand_total (<[t := c]> stats) = S (grand_total stats).
Proof.
  intros Hc. unfold grand_total. rewrite dom_insert_L.
  destruct (decide (t ∈ dom stats)) as [Hin|Hout].
  - assert (Hdom : {[t]} ∪ dom stats = dom stats).
    { apply set_eq. intros k. rewrite elem_of_union, elem_of_singleton.
      split; [intros [->|Hk]; assumption|auto]. }
    rewrite Hdom.
    apply (sum_list_with_bump _ _ t).
    + apply NoDup_elements.
    + apply elem_of_elements, Hin.
    + rewrite bucket_insert_eq. exact Hc.
    + intros k Hk. apply bucket_insert_ne, Hk.
  - rewrite elements_union_singleton by exact Hout. simpl.
    assert (Hzero : bucket stats t = 0%nat).
    { unfold bucket, stats_get.
      apply not_elem_of_dom in Hout. rewrite Hout. reflexivity. }
    rewrite bucket_insert_eq, Hc, Hzero. simpl. f_equal.
    apply sum_list_with_agree. intros k Hk.
    apply bucket_insert_ne. intros ->.
    apply Hout. apply elem_of_elements. exact Hk.
Qed.

Lemma one_increment_counts t stats stats' :
  one_increment t stats stats' ->
  ((success (stats_get stats' t) = S (success (stats_get stats t))
    /\ failed (stats_get stats' t) = failed (stats_get stats t))
   \/ (success (stats_get stats' t) = success (stats_get stats t)
       /\ failed (stats_get stats' t) = S (failed (stats_get stats t))))
  /\ (forall k, k <> t -> stats_get stats' k = stats_get stats k)
  /\ grand_total stats' = S (grand_total stats).
Proof.
  intros Hone.
  assert (Hother : forall k, k <> t -> stats_get stats' k = stats_get stats k).
  { intros k Hk. destruct Hone as [-> | ->];
      unfold incr_success, incr_failed, stats_get at 1;
      rewrite lookup_insert_ne by (intros E; apply Hk; symmetry; exact E);
      reflexivity. }
  destruct Hone as [-> | ->].
  - assert (Hget : stats_get (incr_success t stats) t
                   = mkCounts (S (success (stats_get stats t)))
                              (failed (stats_get stats t))).
    { unfold incr_success, stats_get at 1. rewrite lookup_insert_eq.
      reflexivity. }
    rewrite Hget. simpl. split; [left; split; reflexivity|].
    split; [exact Hother|].
    apply grand_total_insert. unfold bucket. simpl. lia.
  - assert (Hget : stats_get (incr_failed t stats) t
                   = mkCounts (success (stats_get stats t))
                              (S (failed (stats_get stats t)))).
    { unfold incr_failed, stats_get at 1. rewrite lookup_insert_eq.
      reflexivity. }
    rewrite Hget. simpl. split; [right; split; reflexivity|].
    split; [exact Hother|].
    apply grand_total_insert. unfold bucket. simpl. lia.
Qed.

(** *** The loops *)

Lemma process_object_step extract_types output_dir stats obj w :
  exists w' stats',
    process_object extract_types output_dir stats obj w = (w', Ret stats')
    /\ (dispatched extract_types obj = true ->
        one_increment (type_name obj) stats stats')
    /\ (dispatched extract_types obj = false -> stats' = stats /\ w' = w).
Proof.
  unfold process_object. fold (dispatched extract_types obj).
  destruct (dispatched extract_types obj).
  - unfold try_except, bind, eval, ret.
    destruct (dict_getitem EXTRACTORS (type_name obj)) as [extract|e].
    + destruct (extract obj (os_path_join output_dir (type_name obj)) w)
        as [w1 [[|]|e]];
        eexists _, _; (split; [reflexivity|]);
        (split; [intros _|discriminate]);
        unfold one_increment; auto.
    + eexists _, _. split; [reflexivity|].
      split; [intros _|discriminate]. unfold one_increment; auto.
  - eexists _, _. split; [reflexivity|]. split; [discriminate|auto].
Qed.

Lemma counted_cons extract_types t obj objects :
  counted extract_types t (obj :: objects)
  = ((if dispatched extract_types obj
      then if bool_decide (type_name obj = t) then 1 else 0
      else 0) + counted extract_types t objects)%nat.
Proof.
  unfold counted. rewrite filter_cons.
  destruct (decide (dispatched extract_types obj = true
                    /\ type_name obj = t)) as [[-> Ht]|Hn].
  - rewrite bool_decide_eq_true_2 by exact Ht. reflexivity.
  - destruct (dispatched extract_types obj); [|reflexivity].
    rewrite bool_decide_eq_false_2 by tauto. reflexivity.
Qed.

Lemma dispatched_cons extract_types obj objects :
  length (filter (fun o => dispatched extract_types o = true) (obj :: objects))
  = ((if dispatched extract_types obj then 1 else 0)
     + length (filter (fun o => dispatched extract_types o = true) objects))%nat.
Proof.
  rewrite filter_cons.
  destruct (decide (dispatched extract_types obj = true)) as [->|Hn].
  - reflexivity.
  - destruct (dispatched extract_types obj); [congruence|reflexivity].
Qed.

Lemma object_loop extract_types output_dir objects :
  forall stats w,
  exists w' stats',
    fold_m (process_object extract_types output_dir) objects stats w
    = (w', Ret stats')
    /\ (forall t, bucket stats' t
                  = (bucket stats t + counted extract_types t objects)%nat)
    /\ grand_total stats'
       = (grand_total stats
          + length (filter (fun o => dispatched extract_types o = true)
                           objects))%nat.
Proof.
  induction objects as [|obj objects IH]; intros stats w.
  - exists w, stats. split; [reflexivity|].
    unfold counted. simpl. split; [intros t|]; lia.
  - destruct (process_object_step extract_types output_dir stats obj w)
      as (w1 & stats1 & Hstep & Hyes & Hno).
    destruct (IH stats1 w1) as (w' & stats' & Hloop & Hbucket & Htotal).
    exists w', stats'. split.
    { simpl. unfold bind. rewrite Hstep. exact Hloop. }
    rewrite dispatched_cons.
    destruct (dispatched extract_types obj) eqn:Hd.
    + destruct (one_increment_counts _ _ _ (Hyes eq_refl))
        as (Hown & Hother & Hgrand).
      split.
      * intros t. rewrite Hbucket, counted_cons, Hd.
        case_bool_decide as Ht.
        -- subst t. unfold bucket. destruct Hown as [[-> ->]|[-> ->]]; lia.
        -- unfold bucket. rewrite Hother by congruence. lia.
      * rewrite Htotal, Hgrand. lia.
    + destruct (Hno eq_refl) as [-> ->]. split.
      * intros t. rewrite Hbucket, counted_cons, Hd. lia.
      * rewrite Htotal. lia.
Qed.

Section Engine.

Variable UnityPy_load : string -> outcome (list AssetObject).

Lemma process_bundle_step extract_types output_dir stats bundle_file w :
  exists w' stats',
    process_bundle UnityPy_load extract_types output_dir stats bundle_file w
    = (w', Ret stats')
    /\ (forall t, bucket stats' t
                  = (bucket stats t
                     + counted extract_types t (bundle_objects UnityPy_load bundle_file))%nat)
    /\ grand_total stats'
       = (grand_total stats
          + length (filter (fun o => dispatched extract_types o = true)
                           (bundle_objects UnityPy_load bundle_file)))%nat.
Proof.
  unfold process_bundle, bundle_objects, try_except, bind, eval.
  destruct (UnityPy_load bundle_file) as [objects|[msg]].
  - destruct (object_loop extract_types output_dir objects stats w)
      as (w' & stats' & Hloop & Hcounts).
    exists w', stats'. rewrite Hloop. split; [reflexivity|exact Hcounts].
  - unfold when, print, ret.
    destruct (negb _); eexists _, stats;
      (split; [reflexivity|]); unfold counted; simpl;
      (split; [intros t|]); lia.
Qed.

Lemma bundle_loop extract_types output_dir bundles :
  forall stats w,
  exists w' stats',
    fold_m (process_bundle UnityPy_load extract_types output_dir)
           bundles stats w
    = (w', Ret stats')
    /\ (forall t, bucket stats' t
                  = (bucket stats t
                     + counted extract_types t (run_objects UnityPy_load bundles))%nat)
    /\ grand_total stats'
       = (grand_total stats
          + length (filter (fun o => dispatched extract_types o = true)
                           (run_objects UnityPy_load bundles)))%nat.
Proof.
  induction bundles as [|bundle_file bundles IH]; intros stats w.
  - exists w, stats. split; [reflexivity|].
    unfold counted. simpl. split; [intros t|]; lia.
  - destruct (process_bundle_step extract_types output_dir stats
                                  bundle_file w)
      as (w1 & stats1 & Hstep & Hbucket1 & Htotal1).
    destruct (IH stats1 w1) as (w' & stats' & Hloop & Hbucket & Htotal).
    exists w', stats'. split.
    { simpl. unfold bind. rewrite Hstep. exact Hloop. }
    unfold run_objects, counted in *. simpl. split.
    + intros t. rewrite filter_app, length_app, Hbucket, Hbucket1. lia.
    + rewrite filter_app, length_app, Htotal, Htotal1. lia.
Qed.

Lemma makedirs_loop (output_dir : string) (names : list string) w :
  for_each names (fun type_name =>
                    makedirs (os_path_join output_dir type_name)) w
  = (w, Ret tt).
Proof. induction names as [|x names IH]; simpl; [reflexivity|exact IH]. Qed.

Lemma parse_types_returns (types : option string) w :
  exists w' extract_types,
    parse_types types w = (w', Ret extract_types) /\ files w' = files w.
Proof.
  unfold parse_types. destruct types as [t|]; [|eexists _, _; split; reflexivity].
  destruct (negb (bool_decide (t = ""))); [|eexists _, _; split; reflexivity].
  unfold bind, when, print, ret.
  destruct (negb (bool_decide _)); eexists _, _; split; reflexivity.
Qed.

Lemma length_filter_split {A} (f : A -> bool) (l : list A) :
  (length (filter (fun x => f x = true) l)
   + length (filter (fun x => f x = false) l) = length l)%nat.
Proof.
  induction l as [|x l IH]; [reflexivity|].
  rewrite !filter_cons. destruct (f x); simpl.
  - destruct (decide (true = true)); [|congruence].
    destruct (decide (true = false)); [discriminate|]. simpl. lia.
  - destruct (decide (false = true)); [discriminate|].
    destruct (decide (false = false)); [|congruence]. simpl. lia.
Qed.

(** C2 (amended): in a run of the engine, an object whose type is
    requested and has an exporter registered yields exactly one
    increment, of the success or of the failure count of its type, and
    any other object leaves the statistics as they are.  So the bucket
    of a type counts the dispatched objects of that type, and the sum
    of all success and failure counts of the summary is the number of
    objects minus the number of objects whose type was not requested
    or has no exporter. *)
Theorem engine_counts_each_dispatched_object (args : Args) (w : World) :
  exists w1 extract_types bundles w' stats,
    parse_types (types args) w = (w1, Ret extract_types)
    /\ find_bundles (bundle_dir args) w1 = (w1, Ret bundles)
    /\ run UnityPy_load args w = (w', Ret stats)
    /\ (forall output_dir stats0 obj w0,
          exists w0' stats0',
            process_object extract_types output_dir stats0 obj w0
            = (w0', Ret stats0')
            /\ (dispatched extract_types obj = true ->
                let before := stats_get stats0 (type_name obj) in
                let after := stats_get stats0' (type_name obj) in
                ((success after = S (success before)
                  /\ failed after = failed before)
                 \/ (success after = success before
                     /\ failed after = S (failed before)))
                /\ forall t, t <> type_name obj ->
                             stats_get stats0' t = stats_get stats0 t)
            /\ (dispatched extract_types obj = false -> stats0' = stats0))
    /\ (forall t,
          (success (stats_get stats t) + failed (stats_get stats t))%nat
          = counted extract_types t (run_objects UnityPy_load bundles))
    /\ ((summary_totals stats).1 + (summary_totals stats).2
        + length (filter (fun obj => dispatched extract_types obj = false)
                         (run_objects UnityPy_load bundles))
        = length (run_objects UnityPy_load bundles))%nat.
Proof.
  destruct (parse_types_returns (types args) w)
    as (w1 & extract_types & Hparse & _).
  pose proof (DiscoveryFacts.find_bundles_passes (bundle_dir args) w1)
    as Hfind.
  set (bundles := Pathlib.sorted _) in Hfind.
  destruct (bundle_loop extract_types (output_dir args) bundles ∅ w1)
    as (w' & stats & Hloop & Hbucket & Htotal).
  exists w1, extract_types, bundles, w', stats.
  split; [exact Hparse|].
  split; [exact Hfind|].
  split.
  { unfold run. unfold bind at 1. rewrite Hparse.
    unfold bind at 1. rewrite makedirs_loop.
    unfold bind. rewrite Hfind. exact Hloop. }
  split.
  { intros output_dir stats0 obj w0.
    destruct (process_object_step extract_types output_dir stats0 obj w0)
      as (w0' & stats0' & Hstep & Hyes & Hno).
    exists w0', stats0'. split; [exact Hstep|]. split.
    - intros Hd.
      destruct (one_increment_counts _ _ _ (Hyes Hd)) as (Hown & Hother & _).
      split; [exact Hown|exact Hother].
    - intros Hd. apply Hno, Hd. }
  split.
  { intros t. fold (bucket stats t). rewrite Hbucket. reflexivity. }
  rewrite summary_totals_grand_total, Htotal.
  change (grand_total ∅) with 0%nat. simpl.
  apply length_filter_split.
Qed.



End Engine.


(** C2, as stated, fails: [AnimationClip] can be requested (it is in
    [SUPPORTED_TYPES]) but has no exporter, so an object of that type is
    requested and yet not counted. *)
Lemma requested_without_exporter_counterexample :
  let load := fun _ : string => Ret [animation_clip] in
  let args := mkArgs "root" "out" "2021.3.57f2" (Some "AnimationClip") in
  let w := mkWorld {[ "root/a.bundle" := b "UnityFS" ]} [] in
  exists extract_types w' stats,
    parse_types (types args) w = (w, Ret extract_types)
    /\ type_name animation_clip ∈ extract_types
    /\ find_bundles (bundle_dir args) w = (w, Ret ["root/a.bundle"])
    /\ run load args w = (w', Ret stats)
    /\ stats_get stats "AnimationClip" = mkCounts 0 0
    /\ summary_totals stats = (0%nat, 0%nat).
Proof.
  exists ({[ "AnimationClip" ]} : gset string). eexists _, _.
  split; [vm_compute; reflexivity|].
  split; [apply elem_of_singleton; reflexivity|].
  split; [vm_compute; reflexivity|].
  split; [vm_compute; reflexivity|].
  split; vm_compute; reflexivity.
Qed.



End EngineFacts.

(** ** More on the header normaliser: failures, frame, batch mode *)
Module StripCfsBatchFacts.
Import StripCfsSpec.
Import StripCfs StripCfsFacts.

(** The four ways [strip_cfs_header] can go. *)
Lemma strip_cfs_header_cases w input_path output_path :
  (files w !! input_path = None
   /\ exists e, strip_cfs_header input_path output_path w = (w, Raise e))
  \/ (exists content,
        files w !! input_path = Some content
        /\ take 8 content = CFS_MAGIC /\ (length content < 12)%nat
        /\ exists e, strip_cfs_header input_path output_path w = (w, Raise e))
  \/ (exists content,
        files w !! input_path = Some content
        /\ take 8 content = CFS_MAGIC /\ (12 <= length content)%nat
        /\ strip_cfs_header input_path output_path w
           = (mkWorld (<[output_path := drop 32 content]> (files w))
                      (stdout w ++ header_warnings input_path content),
              Ret true))
  \/ (exists content,
        files w !! input_path = Some content
        /\ take 8 content <> CFS_MAGIC
        /\ strip_cfs_header input_path output_path w
           = (mkWorld (<[output_path := content]> (files w)) (stdout w),
              Ret false)).
Proof.
  destruct (files w !! input_path) as [content|] eqn:Hin.
  - destruct (decide (take 8 content = CFS_MAGIC)) as [Hmagic|Hmagic].
    + destruct (decide (length content < 12)%nat) as [Hshort|Hlong].
      * right. left. exists content.
        repeat (split; [assumption || reflexivity|]).
        apply strip_cfs_header_truncated with (content := content); assumption.
      * right. right. left. exists content.
        split; [reflexivity|]. split; [assumption|]. split; [lia|].
        apply strip_cfs_header_stripped; [assumption|assumption|lia].
    + right. right. right. exists content.
      split; [reflexivity|]. split; [assumption|].
      apply strip_cfs_header_copied; assumption.
  - left. split; [reflexivity|].
    unfold strip_cfs_header, bind, open_rb. rewrite Hin. eexists. reflexivity.
Qed.

(** X1: [strip_cfs_header] raises whenever the input file is absent,
    and whenever it has the alternate magic but ends before the version
    field does (fewer than 12 bytes): [struct.unpack] then gets fewer
    than 4 bytes.  In both cases it raises before it looks at the
    output path: nothing was written or printed. *)
Theorem normalize_raises_when_unreadable w input_path output_path :
  (files w !! input_path = None
   \/ exists content,
        files w !! input_path = Some content
        /\ take 8 content = CFS_MAGIC /\ (length content < 12)%nat) ->
  exists e, strip_cfs_header input_path output_path w = (w, Raise e).
Proof.
  intros Hbad.
  destruct (strip_cfs_header_cases w input_path output_path)
    as [[Hin [e ->]]|[(content & Hin & Hmagic & Hlen & e & ->)
       |[(content & Hin & Hmagic & Hlen & _)|(content & Hin & Hmagic & _)]]];
    [eauto|eauto| |];
    destruct Hbad as [Hnone|(content' & Hin' & Hmagic' & Hshort)];
    rewrite Hin in *; try discriminate; simplify_eq; lia || contradiction.
Qed.

Lemma normalize_raises_when_unreadable_witness :
  let w := mkWorld {[ "in/cut.bundle" := b "UnityCFS" ++ [x01; x00] ]} [] in
  exists e, strip_cfs_header "in/cut.bundle" "out/cut.bundle" w
            = (w, Raise e).
Proof.
  intros w.
  apply (normalize_raises_when_unreadable w "in/cut.bundle" "out/cut.bundle").
  right. exists (b "UnityCFS" ++ [x01; x00]).
  split; [reflexivity|]. split; [reflexivity|]. simpl. lia.
Defined.

(** X2: whatever the input, [strip_cfs_header] changes no file other
    than the output path, and only adds to what is printed. *)
Theorem normalize_touches_only_output w input_path output_path :
  delete output_path (files (strip_cfs_header input_path output_path w).1)
  = delete output_path (files w)
  /\ exists printed,
      stdout (strip_cfs_header input_path output_path w).1
      = stdout w ++ printed.
Proof.
  destruct (strip_cfs_header_cases w input_path output_path)
    as [[Hin [e ->]]|[(content & Hin & Hmagic & Hlen & e & ->)
       |[(content & Hin & Hmagic & Hlen & ->)|(content & Hin & Hmagic & ->)]]];
    simpl.
  - split; [reflexivity|]. exists []. rewrite app_nil_r. reflexivity.
  - split; [reflexivity|]. exists []. rewrite app_nil_r. reflexivity.
  - split; [apply delete_insert_eq|]. eexists. reflexivity.
  - split; [apply delete_insert_eq|]. exists []. rewrite app_nil_r. reflexivity.
Qed.


Import StripCfsBatchSpec.

Lemma lookup_of_delete_eq (m1 m2 : gmap string bytes) (k p : string) :
  delete k m1 = delete k m2 -> p <> k -> m1 !! p = m2 !! p.
Proof.
  intros H Hne.
  rewrite <- (lookup_delete_ne m1 k p) by (intros E; apply Hne; symmetry; exact E).
  rewrite <- (lookup_delete_ne m2 k p) by (intros E; apply Hne; symmetry; exact E).
  rewrite H. reflexivity.
Qed.

Lemma process_directory_loop input_dir output_dir w :
  exists candidates,
    candidate_files input_dir w = (w, Ret candidates)
    /\ process_directory input_dir output_dir w
       = fold_m (process_file input_dir output_dir)
                (Pathlib.sorted candidates) (mkStats 0 0 0 0) w.
Proof. eexists. split; reflexivity. Qed.

Lemma process_file_step input_dir output_dir stats filepath w :
  exists w' stats',
    process_file input_dir output_dir stats filepath w = (w', Ret stats')
    /\ total stats' = S (total stats)
    /\ (cfs_stripped stats' + already_standard stats' + errors stats'
        = S (cfs_stripped stats + already_standard stats + errors stats))%nat
    /\ (errors stats' = S (errors stats) <-> truncated_header w filepath = true
                                             \/ files w !! filepath = None)
    /\ delete (out_file_of input_dir output_dir filepath) (files w')
       = delete (out_file_of input_dir output_dir filepath) (files w).
Proof.
  unfold process_file, out_file_of, try_except, bind, truncated_header.
  destruct (strip_cfs_header_cases w filepath
              (os_path_join output_dir (Pathlib.relative_to filepath input_dir)))
    as [[Hin [e ->]]|[(content & Hin & Hmagic & Hlen & e & ->)
       |[(content & Hin & Hmagic & Hlen & ->)|(content & Hin & Hmagic & ->)]]];
    rewrite Hin; unfold print, ret; simpl; eexists _, _;
    (split; [reflexivity|]); simpl;
    (split; [reflexivity|]); (split; [lia|]).
  - split; [|reflexivity]. split; auto.
  - split; [|reflexivity]. split; [intros _; left|reflexivity].
    rewrite !bool_decide_eq_true_2 by assumption. reflexivity.
  - split; [|apply delete_insert_eq]. split; [lia|].
    intros [H|H]; [|discriminate H].
    rewrite (bool_decide_eq_false_2 (length content < 12)%nat) in H by lia.
    rewrite andb_false_r in H. discriminate H.
  - split; [|apply delete_insert_eq]. split; [lia|].
    intros [H|H]; [|discriminate H].
    rewrite (bool_decide_eq_false_2 (take 8 content = CFS_MAGIC)) in H
      by assumption.
    discriminate H.
Qed.

Lemma process_file_loop input_dir output_dir (paths : list string) :
  forall stats w,
  exists w' stats',
    fold_m (process_file input_dir output_dir) paths stats w = (w', Ret stats')
    /\ total stats' = (total stats + length paths)%nat
    /\ (cfs_stripped stats' + already_standard stats' + errors stats'
        = cfs_stripped stats + already_standard stats + errors stats
          + length paths)%nat
    /\ forall p,
         files w' !! p = files w !! p
         \/ exists f, f ∈ paths /\ p = out_file_of input_dir output_dir f.
Proof.
  induction paths as [|f paths IH]; intros stats w.
  - exists w, stats. split; [reflexivity|]. simpl.
    split; [lia|]. split; [lia|]. intros p. left. reflexivity.
  - destruct (process_file_step input_dir output_dir stats f w)
      as (w1 & stats1 & Hstep & Htotal1 & Hsum1 & _ & Hframe1).
    destruct (IH stats1 w1) as (w' & stats' & Hloop & Htotal & Hsum & Hframe).
    exists w', stats'. split.
    { simpl. unfold bind. rewrite Hstep. exact Hloop. }
    simpl. split; [lia|]. split; [lia|].
    intros p. destruct (Hframe p) as [Hsame|(g & Hg & ->)].
    + destruct (decide (p = out_file_of input_dir output_dir f)) as [->|Hne].
      * right. exists f. split; [left|reflexivity].
      * left. rewrite Hsame.
        exact (lookup_of_delete_eq _ _ _ _ Hframe1 Hne).
    + right. exists g. split; [right; exact Hg|reflexivity].
Qed.


(** X5: the only files [process_directory] writes are the images of
    its candidate files under the output directory: the output
    directory joined with the path of the candidate relative to the
    input directory.  Every other file is as it was. *)
Theorem process_directory_mirrors_relative_paths input_dir output_dir w :
  exists candidates,
    candidate_files input_dir w = (w, Ret candidates)
    /\ forall p,
         files (process_directory input_dir output_dir w).1 !! p
         = files w !! p
         \/ exists f,
              f ∈ candidates
              /\ p = os_path_join output_dir
                                  (Pathlib.relative_to f input_dir).
Proof.
  destruct (process_directory_loop input_dir output_dir w)
    as (candidates & Hcand & Hrun).
  destruct (process_file_loop input_dir output_dir
              (Pathlib.sorted candidates) (mkStats 0 0 0 0) w)
    as (w' & stats & Hloop & _ & _ & Hframe).
  exists candidates. split; [exact Hcand|].
  intros p. rewrite Hrun, Hloop. simpl.
  destruct (Hframe p) as [Hsame|(f & Hf & ->)]; [left; exact Hsame|].
  right. exists f. split; [|reflexivity].
  unfold Pathlib.sorted in Hf. rewrite merge_sort_Permutation in Hf. exact Hf.
Qed.



(** The same truncated file, alone in a directory, is counted as an
    error by the batch mode, which leaves with status 0. *)
Example truncated_file_in_batch_mode :
  let w := mkWorld {[ "in/cut.bundle" := b "UnityCFS" ]} [] in
  (exit_status (main ["strip_cfs.py"; "in/cut.bundle"; "out.bundle"]) w).2 = 1
  /\ (exit_status (main ["strip_cfs.py"; "in"; "out"]) w).2 = 0
  /\ (process_directory "in" "out" w).2 = Ret (mkStats 0 0 1 1).
Proof. repeat split; vm_compute; reflexivity. Qed.

End StripCfsBatchFacts.

(** ** The order of paths and of discovery *)
Module DiscoveryOrderFacts.
Import DiscoveryOrderSpec.
Import Pathlib ExtractAssets.

Lemma string_compare_refl (s : string) : String.compare s s = Eq.
Proof.
  induction s as [|c s IH]; simpl; [reflexivity|].
  unfold Ascii.compare. rewrite N.compare_refl. exact IH.
Qed.

Lemma string_compare_lt_trans (s1 s2 s3 : string) :
  String.compare s1 s2 = Lt -> String.compare s2 s3 = Lt ->
  String.compare s1 s3 = Lt.
Proof.
  revert s2 s3. induction s1 as [|c1 s1 IH]; intros [|c2 s2] [|c3 s3];
    simpl; try discriminate; try reflexivity.
  unfold Ascii.compare.
  destruct (N.compare_spec (N_of_ascii c1) (N_of_ascii c2)) as [E12|L12|G12];
    try discriminate;
    destruct (N.compare_spec (N_of_ascii c2) (N_of_ascii c3)) as [E23|L23|G23];
    try discriminate; intros H12 H23.
  - rewrite E12, E23, N.compare_refl. eapply IH; eassumption.
  - rewrite E12. apply N.compare_lt_iff in L23. rewrite L23. reflexivity.
  - rewrite <- E23. apply N.compare_lt_iff in L12. rewrite L12. reflexivity.
  - assert (L13 : (N_of_ascii c1 < N_of_ascii c3)%N) by lia.
    apply N.compare_lt_iff in L13. rewrite L13. reflexivity.
Qed.

Lemma parts_leb_refl (l : list string) : parts_leb l l = true.
Proof.
  induction l as [|x l IH]; simpl; [reflexivity|].
  rewrite string_compare_refl. exact IH.
Qed.

Lemma parts_leb_total (l1 l2 : list string) :
  parts_leb l1 l2 = true \/ parts_leb l2 l1 = true.
Proof.
  revert l2. induction l1 as [|x l1 IH]; intros [|y l2]; simpl; auto.
  rewrite (String.compare_antisym y x).
  destruct (String.compare x y); simpl; auto.
Qed.

Lemma parts_leb_antisym (l1 l2 : list string) :
  parts_leb l1 l2 = true -> parts_leb l2 l1 = true -> l1 = l2.
Proof.
  revert l2. induction l1 as [|x l1 IH]; intros [|y l2]; simpl;
    try discriminate; [reflexivity|].
  rewrite (String.compare_antisym y x).
  destruct (String.compare x y) eqn:E; simpl; try discriminate.
  apply String.compare_eq_iff in E. subst y.
  intros H1 H2. f_equal. apply IH; assumption.
Qed.

Lemma parts_leb_trans (l1 l2 l3 : list string) :
  parts_leb l1 l2 = true -> parts_leb l2 l3 = true -> parts_leb l1 l3 = true.
Proof.
  revert l2 l3. induction l1 as [|x l1 IH]; intros [|y l2] [|z l3]; simpl;
    try discriminate; try reflexivity.
  destruct (String.compare x y) eqn:Exy; try discriminate;
    destruct (String.compare y z) eqn:Eyz; try discriminate; intros H1 H2.
  - apply String.compare_eq_iff in Exy, Eyz. subst y z.
    rewrite string_compare_refl. eapply IH; eassumption.
  - apply String.compare_eq_iff in Exy. subst y. rewrite Eyz. reflexivity.
  - apply String.compare_eq_iff in Eyz. subst z. rewrite Exy. reflexivity.
  - rewrite (string_compare_lt_trans x y z) by assumption. reflexivity.
Qed.

Lemma split_on_not_nil (sep : ascii) (s : string) : split_on sep s <> [].
Proof.
  destruct s as [|c s]; simpl; [discriminate|].
  destruct (Ascii.eqb c sep); [discriminate|].
  destruct (split_on sep s); discriminate.
Qed.

(** Joining the parts with the separator gives the path back. *)
Lemma concat_split_on (sep : ascii) (s : string) :
  String.concat (String sep "") (split_on sep s) = s.
Proof.
  induction s as [|c s IH]; [reflexivity|].
  simpl split_on. pose proof (split_on_not_nil sep s) as Hne.
  destruct (Ascii.eqb_spec c sep) as [->|Hc].
  - destruct (split_on sep s) as [|x xs] eqn:E; [contradiction|].
    change (String.concat (String sep "") ("" :: x :: xs))
      with (String sep (String.concat (String sep "") (x :: xs))).
    rewrite IH. reflexivity.
  - destruct (split_on sep s) as [|x xs] eqn:E; [contradiction|].
    destruct xs as [|x' xs].
    + simpl in *. rewrite IH. reflexivity.
    + change (String.concat (String sep "") (String c x :: x' :: xs))
        with (String c (String.concat (String sep "") (x :: x' :: xs))).
      rewrite IH. reflexivity.
Qed.

Lemma parts_inj (p q : string) : parts p = parts q -> p = q.
Proof.
  unfold parts. intros H.
  rewrite <- (concat_split_on "/" p), <- (concat_split_on "/" q), H.
  reflexivity.
Qed.

#[local] Instance le_total : Total le.
Proof. intros p q. apply parts_leb_total. Qed.

#[local] Instance le_trans : Transitive le.
Proof. intros p q r. apply parts_leb_trans. Qed.

#[local] Instance le_antisym : AntiSymm (=) le.
Proof. intros p q H1 H2. apply parts_inj, parts_leb_antisym; assumption. Qed.

Lemma NoDup_rglob_files root w : NoDup (rglob_files root w).
Proof.
  unfold rglob_files. apply NoDup_filter, NoDup_fst_map_to_list.
Qed.

Lemma elem_of_rglob_files root w f :
  f ∈ rglob_files root w
  <-> String.prefix (root +:+ "/") f = true /\ is_Some (files w !! f).
Proof.
  unfold rglob_files. rewrite list_elem_of_filter.
  split; intros [Hp Hf]; (split; [exact Hp|]).
  - apply list_elem_of_fmap in Hf as ([k v] & -> & Hkv).
    apply elem_of_map_to_list in Hkv. simpl. eauto.
  - destruct Hf as [v Hv]. apply list_elem_of_fmap.
    exists (f, v). split; [reflexivity|]. apply elem_of_map_to_list. exact Hv.
Qed.

Lemma find_bundles_from_listing root w :
  find_bundles root w = (w, Ret (find_bundles_from (rglob_files root w) w)).
Proof. reflexivity. Qed.

Lemma find_bundles_from_subset listing w f :
  f ∈ find_bundles_from listing w -> f ∈ listing.
Proof.
  unfold find_bundles_from, sorted. rewrite merge_sort_Permutation.
  destruct (bool_decide _); intros H%list_elem_of_filter; tauto.
Qed.

(** X7: [find_bundles] changes nothing, and what it returns is in
    ascending order of paths (compared part by part), holds no file twice
    and holds only files that exist below the root. *)
Theorem find_bundles_sorted_without_duplicates (root : string) (w : World) :
  exists found,
    find_bundles root w = (w, Ret found)
    /\ StronglySorted le found
    /\ NoDup found
    /\ forall f, f ∈ found ->
                 String.prefix (root +:+ "/") f = true
                 /\ is_Some (files w !! f).
Proof.
  eexists. split; [apply find_bundles_from_listing|].
  split; [|split].
  - unfold find_bundles_from, sorted. apply StronglySorted_merge_sort; apply _.
  - unfold find_bundles_from, sorted. rewrite merge_sort_Permutation.
    destruct (bool_decide _); apply NoDup_filter, NoDup_rglob_files.
  - intros f Hf%find_bundles_from_subset. apply elem_of_rglob_files, Hf.
Qed.

(** X8: the result of [find_bundles] does not depend on the order in
    which the directory scan yields the files: two scans that yield the
    same files give the same list. *)
Theorem find_bundles_ignores_scan_order (listing1 listing2 : list string)
        (w : World) :
  listing1 ≡ₚ listing2 ->
  find_bundles_from listing1 w = find_bundles_from listing2 w.
Proof.
  intros Hperm. unfold find_bundles_from, sorted.
  apply (Sorted_unique le).
  - apply Sorted_merge_sort; apply _.
  - apply Sorted_merge_sort; apply _.
  - rewrite !merge_sort_Permutation.
    set (P := fun f : string => _ = true).
    assert (Hfirst : filter P listing1 ≡ₚ filter P listing2)
      by (rewrite Hperm; reflexivity).
    assert (Hsecond : filter (fun f => (100 <? st_size f w) = true) listing1
                      ≡ₚ filter (fun f => (100 <? st_size f w) = true) listing2)
      by (rewrite Hperm; reflexivity).
    destruct (filter P listing1) as [|x l1], (filter P listing2) as [|y l2].
    + exact Hsecond.
    + apply Permutation_nil_l in Hfirst. discriminate Hfirst.
    + apply Permutation_nil_r in Hfirst. discriminate Hfirst.
    + rewrite (bool_decide_eq_false_2 (x :: l1 = [])) by discriminate.
      rewrite (bool_decide_eq_false_2 (y :: l2 = [])) by discriminate.
      exact Hfirst.
Qed.

Lemma find_bundles_ignores_scan_order_witness :
  let w := mkWorld {[ "root/b.bundle" := []; "root/a.bundle" := [] ]} [] in
  find_bundles_from ["root/b.bundle"; "root/a.bundle"] w
  = find_bundles_from ["root/a.bundle"; "root/b.bundle"] w.
Proof.
  intros w.
  apply (find_bundles_ignores_scan_order
           ["root/b.bundle"; "root/a.bundle"]
           ["root/a.bundle"; "root/b.bundle"] w).
  apply perm_swap.
Defined.

End DiscoveryOrderFacts.

(** ** Where an extraction writes *)
Module ConfinementFacts.
Import ConfinementSpec.
Import ExtractAssets.

#[local] Arguments os_path_join : simpl never.
#[local] Arguments safe_filename : simpl never.
#[local] Arguments str_of_Z : simpl never.
#[local] Arguments str_or : simpl never.

(** *** Names without separator *)

Lemma no_slash_app (s1 s2 : string) :
  no_slash (s1 +:+ s2) = no_slash s1 && no_slash s2.
Proof.
  induction s1 as [|c s1 IH]; [reflexivity|].
  change (String c s1 +:+ s2) with (String c (s1 +:+ s2)).
  simpl. rewrite IH. apply andb_assoc.
Qed.

Lemma no_slash_safe_filename (name : string) :
  no_slash (safe_filename name) = true.
Proof.
  unfold safe_filename.
  induction name as [|c name IH]; [reflexivity|].
  cbn [list_ascii_of_string map string_of_list_ascii no_slash].
  rewrite IH, andb_true_r.
  destruct (isalnum c || in_dot_underscore_dash c) eqn:E; [|reflexivity].
  destruct (Ascii.eqb_spec c "/") as [->|_]; [|reflexivity].
  vm_compute in E. discriminate E.
Qed.

Lemma no_slash_string_of_uint (d : Decimal.uint) :
  no_slash (NilEmpty.string_of_uint d) = true.
Proof. induction d; simpl; auto. Qed.

Lemma no_slash_str_of_Z (n : Z) : no_slash (str_of_Z n) = true.
Proof.
  unfold str_of_Z. destruct (Z.to_int n); simpl;
    apply no_slash_string_of_uint.
Qed.

Lemma no_slash_audio_ext (audio_data : bytes) :
  no_slash (audio_ext audio_data) = true.
Proof. unfold audio_ext. repeat case_match; reflexivity. Qed.

Ltac no_slash_solve :=
  rewrite ?no_slash_app, ?no_slash_safe_filename, ?no_slash_str_of_Z,
    ?no_slash_audio_ext;
  reflexivity.

(** *** Statements that stay within the allowed paths *)

Section Confined.

Variable allowed : string -> Prop.

Lemma only_in_refl w : only_in allowed w w.
Proof. intros p. left. reflexivity. Qed.

Lemma only_in_trans w1 w2 w3 :
  only_in allowed w1 w2 -> only_in allowed w2 w3 -> only_in allowed w1 w3.
Proof.
  intros H12 H23 p. destruct (H23 p) as [E23|Hp]; [|right; exact Hp].
  destruct (H12 p) as [E12|Hp]; [|right; exact Hp].
  left. rewrite E23. exact E12.
Qed.

Lemma only_in_stdout w out : only_in allowed w (mkWorld (files w) out).
Proof. intros p. left. reflexivity. Qed.

Lemma only_in_insert w path data out :
  allowed path ->
  only_in allowed w (mkWorld (<[path := data]> (files w)) out).
Proof.
  intros Hpath p. simpl. destruct (decide (path = p)) as [<-|Hne].
  - right. exact Hpath.
  - left. apply lookup_insert_ne, Hne.
Qed.

Lemma only_in_delete w path out :
  allowed path -> only_in allowed w (mkWorld (delete path (files w)) out).
Proof.
  intros Hpath p. simpl. destruct (decide (path = p)) as [<-|Hne].
  - right. exact Hpath.
  - left. apply lookup_delete_ne, Hne.
Qed.

Lemma confined_ret {A} (a : A) : confined allowed (ret a).
Proof. intros w. apply only_in_refl. Qed.

Lemma confined_eval {A} (o : outcome A) : confined allowed (eval o).
Proof. intros w. apply only_in_refl. Qed.

Lemma confined_raise {A} (e : exn) : confined allowed (@raise A e).
Proof. intros w. apply only_in_refl. Qed.

Lemma confined_reads {A} (f : World -> A) : confined allowed (reads f).
Proof. intros w. apply only_in_refl. Qed.

Lemma confined_path_exists path : confined allowed (path_exists path).
Proof. intros w. apply only_in_refl. Qed.

Lemma confined_print msg : confined allowed (print msg).
Proof. intros w. apply only_in_stdout. Qed.

Lemma confined_makedirs path : confined allowed (makedirs path).
Proof. intros w. apply only_in_refl. Qed.

Lemma confined_write_file path data :
  allowed path -> confined allowed (write_file path data).
Proof. intros Hpath w. apply only_in_insert, Hpath. Qed.

Lemma confined_remove_file path :
  allowed path -> confined allowed (remove_file path).
Proof. intros Hpath w. apply only_in_delete, Hpath. Qed.

Lemma confined_bind {A B} (m : Py A) (k : A -> Py B) :
  confined allowed m -> (forall a, confined allowed (k a)) ->
  confined allowed (bind m k).
Proof.
  intros Hm Hk w. unfold bind. specialize (Hm w).
  destruct (m w) as [w1 [a|e]]; simpl in *; [|exact Hm].
  eapply only_in_trans; [exact Hm|apply Hk].
Qed.

Lemma confined_try_except {A} (m : Py A) (h : exn -> Py A) :
  confined allowed m -> (forall e, confined allowed (h e)) ->
  confined allowed (try_except m h).
Proof.
  intros Hm Hh w. unfold try_except. specialize (Hm w).
  destruct (m w) as [w1 [a|e]]; simpl in *; [exact Hm|].
  eapply only_in_trans; [exact Hm|apply Hh].
Qed.

Lemma confined_when (c : bool) (m : Py unit) :
  confined allowed m -> confined allowed (when c m).
Proof. intros Hm. destruct c; [exact Hm|apply confined_ret]. Qed.

Lemma confined_for_each {A} (l : list A) (body : A -> Py unit) :
  (forall x, confined allowed (body x)) -> confined allowed (for_each l body).
Proof.
  intros Hbody. induction l as [|x l IH]; simpl.
  - apply confined_ret.
  - apply confined_bind; [apply Hbody|intros _; exact IH].
Qed.

Lemma confined_fold_m {A S} (body : S -> A -> Py S) (l : list A) :
  (forall acc x, confined allowed (body acc x)) ->
  forall acc, confined allowed (fold_m body l acc).
Proof.
  intros Hbody. induction l as [|x l IH]; intros acc; simpl.
  - apply confined_ret.
  - apply confined_bind; [apply Hbody|intros acc'; apply IH].
Qed.

Lemma confined_image_save img outpath :
  allowed outpath -> confined allowed (image_save img outpath).
Proof.
  intros Hpath. unfold image_save.
  apply confined_bind; [apply confined_path_exists|intros existed].
  apply confined_bind; [apply confined_write_file, Hpath|intros _].
  destruct (png img) as [data|e].
  - apply confined_write_file, Hpath.
  - apply confined_bind; [|intros _; apply confined_raise].
    apply confined_when, confined_remove_file, Hpath.
Qed.

End Confined.

Lemma confined_weaken {A} (allowed1 allowed2 : string -> Prop) (m : Py A) :
  (forall p, allowed1 p -> allowed2 p) ->
  confined allowed1 m -> confined allowed2 m.
Proof.
  intros Himp Hm w p. destruct (Hm w p) as [E|Hp]; [left; exact E|].
  right. apply Himp, Hp.
Qed.

(** *** The exporters *)

Ltac in_output_dir :=
  match goal with
  | |- directly_in _ (if ?c then _ else _) => destruct c
  | |- directly_in _ _ => eexists; split; [|reflexivity]; no_slash_solve
  end.

Ltac confine :=
  repeat first
    [ apply confined_ret
    | apply confined_eval
    | apply confined_path_exists
    | apply confined_print
    | apply confined_image_save
    | apply confined_write_file
    | apply confined_for_each; intros [? ?]
    | apply confined_try_except; [|intros ?]
    | apply confined_bind; [|intros ?]
    | in_output_dir
    | case_match ].

Lemma extract_texture2d_confined obj output_dir :
  confined (directly_in output_dir) (extract_texture2d obj output_dir).
Proof. unfold extract_texture2d. confine. Qed.

Lemma extract_mesh_confined obj output_dir :
  confined (directly_in output_dir) (extract_mesh obj output_dir).
Proof. unfold extract_mesh, write_text. confine. Qed.

Lemma extract_audioclip_confined obj output_dir :
  confined (directly_in output_dir) (extract_audioclip obj output_dir).
Proof. unfold extract_audioclip. confine. Qed.

Lemma extract_textasset_confined obj output_dir :
  confined (directly_in output_dir) (extract_textasset obj output_dir).
Proof. unfold extract_textasset, write_text. confine. Qed.

Lemma extract_font_confined obj output_dir :
  confined (directly_in output_dir) (extract_font obj output_dir).
Proof. unfold extract_font. confine. Qed.

Lemma extract_sprite_confined obj output_dir :
  confined (directly_in output_dir) (extract_sprite obj output_dir).
Proof. unfold extract_sprite. confine. Qed.

Lemma extractor_confined kind (extract : extractor) obj output_dir :
  (kind, extract) ∈ EXTRACTORS ->
  confined (directly_in output_dir) (extract obj output_dir).
Proof.
  intros Hin. unfold EXTRACTORS in Hin.
  repeat (apply elem_of_cons in Hin as [Hin|Hin]; [injection Hin as -> ->|]).
  - apply extract_texture2d_confined.
  - apply extract_mesh_confined.
  - apply extract_audioclip_confined.
  - apply extract_textasset_confined.
  - apply extract_font_confined.
  - apply extract_sprite_confined.
  - inversion Hin.
Qed.

(** X9: an exporter of [EXTRACTORS] writes, truncates or removes only
    files that lie directly in its output directory: a path it changes
    is the output directory joined with a name that holds no separator,
    whatever the name of the object is.  Every other file is as it
    was. *)
Theorem export_writes_only_in_output_dir
    kind (extract : extractor) obj output_dir w p :
  (kind, extract) ∈ EXTRACTORS ->
  files (extract obj output_dir w).1 !! p = files w !! p
  \/ directly_in output_dir p.
Proof.
  intros Hin. exact (extractor_confined kind extract obj output_dir Hin w p).
Qed.

Lemma export_writes_only_in_output_dir_witness :
  let obj :=
    mkAssetObject "TextAsset" 9
      (Ret (mkObjectData "../../etc/passwd" 0 0 (Ret None)
              (Raise (Exception "not a mesh")) (Ret [])
              (ScriptStr "text") [])) in
  let w := mkWorld {[ "etc/passwd" := b "root" ]} [] in
  files (extract_textasset obj "out/TextAsset" w).1 !! "etc/passwd"
  = files w !! "etc/passwd"
  \/ directly_in "out/TextAsset" "etc/passwd".
Proof.
  intros obj w.
  apply (export_writes_only_in_output_dir
           "TextAsset" extract_textasset obj "out/TextAsset" w "etc/passwd").
  unfold EXTRACTORS. do 3 right. left.
Defined.

(** *** The engines *)

Lemma dict_getitem_elem {V} (d : list (string * V)) key v :
  dict_getitem d key = Ret v -> (key, v) ∈ d.
Proof.
  induction d as [|[k v'] d IH]; simpl; [discriminate|].
  case_bool_decide as Hk.
  - intros [= ->]. subst k. left.
  - intros H. right. apply IH, H.
Qed.

Section Engine.

Variable UnityPy_load : string -> outcome (list AssetObject).

Lemma process_object_confined extract_types output_dir stats obj :
  confined (in_type_dir extract_types output_dir)
           (process_object extract_types output_dir stats obj).
Proof.
  unfold process_object.
  case_bool_decide as Hrequested; cbn [andb]; [|apply confined_ret].
  case_bool_decide as Hkey; [|apply confined_ret].
  apply confined_try_except; [|intros _; apply confined_ret].
  destruct (dict_getitem EXTRACTORS (type_name obj)) as [extract|e] eqn:Hget.
  - intros w. unfold bind, eval.
    apply dict_getitem_elem in Hget.
    pose proof (extractor_confined _ extract obj
                  (os_path_join output_dir (type_name obj)) Hget w) as Hex.
    destruct (extract obj (os_path_join output_dir (type_name obj)) w)
      as [w1 [[|]|e]]; simpl in *;
      intros p; (destruct (Hex p) as [E|Hp];
                 [left; exact E|right; exists (type_name obj); auto]).
  - intros w. apply only_in_refl.
Qed.

Lemma process_bundle_confined extract_types output_dir stats bundle_file :
  confined (in_type_dir extract_types output_dir)
    (process_bundle UnityPy_load extract_types output_dir stats bundle_file).
Proof.
  unfold process_bundle.
  apply confined_try_except.
  - apply confined_bind; [apply confined_eval|intros objects].
    apply confined_fold_m. intros acc x. apply process_object_confined.
  - intros [msg].
    apply confined_bind; [|intros _; apply confined_ret].
    apply confined_when, confined_print.
Qed.

Lemma parse_types_files types w :
  exists w1 extract_types,
    parse_types types w = (w1, Ret extract_types) /\ files w1 = files w.
Proof.
  unfold parse_types. destruct types as [t|]; [|eexists _, _; eauto].
  destruct (negb (bool_decide (t = ""))); [|eexists _, _; eauto].
  unfold bind, when, print, ret.
  destruct (negb _); eexists _, _; eauto.
Qed.

(** X10: a run of [extract_assets.py] writes, truncates or removes only
    files that lie directly in a type directory, [output_dir/<type>]
    for a type that was requested and has an exporter.  Every other
    file is as it was when the run ends, whatever the bundles hold and
    whether or not exports fail. *)
Theorem extraction_writes_only_in_type_dirs args w :
  exists w1 extract_types,
    parse_types (types args) w = (w1, Ret extract_types)
    /\ only_in (in_type_dir extract_types (output_dir args)) w
               (run UnityPy_load args w).1.
Proof.
  destruct (parse_types_files (types args) w)
    as (w1 & extract_types & Hparse & Hfiles).
  exists w1, extract_types. split; [exact Hparse|].
  unfold run. unfold bind at 1. rewrite Hparse.
  assert (Hrest : confined (in_type_dir extract_types (output_dir args))
            (for_each (elements extract_types)
               (fun type_name =>
                  makedirs (os_path_join (output_dir args) type_name)) >>
             let* bundles := find_bundles (bundle_dir args) in
             fold_m (process_bundle UnityPy_load extract_types
                                    (output_dir args)) bundles ∅)).
  { apply confined_bind.
    - apply confined_for_each. intros t. apply confined_makedirs.
    - intros _.
      apply confined_bind; [apply confined_reads|intros bundles].
      apply confined_fold_m. intros acc x. apply process_bundle_confined. }
  intros p. destruct (Hrest w1 p) as [E|Hp]; [left|right; exact Hp].
  rewrite E, Hfiles. reflexivity.
Qed.

Lemma texture_object_confined args c obj :
  confined (directly_in (ExtractTextures.output_dir args))
           (ExtractTextures.process_object args c obj).
Proof.
  unfold ExtractTextures.process_object, ExtractTextures.safe_filename.
  confine.
Qed.

(** X11: a run of [extract_textures.py] writes, truncates or removes
    only files that lie directly in its output directory; no
    subdirectory is written to and every other file is as it was. *)
Theorem texture_run_writes_only_in_output_dir args w :
  only_in (directly_in (ExtractTextures.output_dir args)) w
          (ExtractTextures.run UnityPy_load args w).1.
Proof.
  revert w. change (confined (directly_in (ExtractTextures.output_dir args))
                             (ExtractTextures.run UnityPy_load args)).
  unfold ExtractTextures.run.
  apply confined_bind; [apply confined_makedirs|intros _].
  apply confined_bind; [apply confined_reads|intros bundles].
  apply confined_fold_m. intros acc bundle_file.
  unfold ExtractTextures.process_bundle.
  apply confined_try_except; [|intros _; apply confined_ret].
  apply confined_bind; [apply confined_eval|intros objects].
  apply confined_fold_m. intros acc' obj. apply texture_object_confined.
Qed.

End Engine.

End ConfinementFacts.

(** ** What the exporters return *)
Module ExporterResultFacts.
Import ExporterSpec ResultSpec.
Import ExtractAssets ExporterFacts.

#[local] Arguments image_save : simpl never.
#[local] Arguments os_path_join : simpl never.
#[local] Arguments safe_filename : simpl never.
#[local] Arguments str_of_Z : simpl never.
#[local] Arguments str_or : simpl never.

Lemma try_except_false_returns (m : Py bool) w :
  exists w' ok, try_except m (fun _ => ret false) w = (w', Ret ok).
Proof.
  unfold try_except, ret. destruct (m w) as [w1 [ok|e]]; eauto.
Qed.

Lemma extractor_result kind (extract : extractor) obj output_dir w :
  (kind, extract) ∈ EXTRACTORS ->
  match read obj with
  | Ret data => exists w' ok, extract obj output_dir w = (w', Ret ok)
  | Raise e => extract obj output_dir w = (w, Raise e)
  end.
Proof.
  intros Hin. unfold EXTRACTORS in Hin.
  repeat (apply elem_of_cons in Hin as [Hin|Hin]; [injection Hin as -> ->|]);
    [| | | | | |inversion Hin];
    unfold extract_texture2d, extract_mesh, extract_audioclip,
      extract_textasset, extract_font, extract_sprite;
    unfold bind at 1, eval at 1;
    (destruct (read obj) as [data|e]; [|reflexivity]);
    apply try_except_false_returns.
Qed.

(** X12: an exporter of [EXTRACTORS] raises exactly when [obj.read()]
    raises, and then it raises that exception and leaves the files and
    the output as they were; once [obj.read()] has returned, whatever
    goes wrong is caught and the exporter returns [True] or [False]. *)
Theorem exporter_raises_only_from_read
    kind (extract : extractor) obj output_dir w e :
  (kind, extract) ∈ EXTRACTORS ->
  ((extract obj output_dir w).2 = Raise e <-> read obj = Raise e)
  /\ (read obj = Raise e -> (extract obj output_dir w).1 = w).
Proof.
  intros Hin.
  pose proof (extractor_result kind extract obj output_dir w Hin) as Hres.
  destruct (read obj) as [data|e'].
  - destruct Hres as (w' & ok & ->). simpl.
    split; [split|]; discriminate.
  - rewrite Hres. simpl.
    split; [split; intros [= ->]; reflexivity|intros _; reflexivity].
Qed.

Lemma exporter_raises_only_from_read_witness :
  ((extract_mesh failing_read "out/Mesh" (mkWorld ∅ [])).2
   = Raise (Exception "truncated object")
   <-> read failing_read = Raise (Exception "truncated object"))
  /\ (read failing_read = Raise (Exception "truncated object") ->
      (extract_mesh failing_read "out/Mesh" (mkWorld ∅ [])).1
      = mkWorld ∅ []).
Proof.
  apply (exporter_raises_only_from_read "Mesh" extract_mesh).
  unfold EXTRACTORS. right. left.
Defined.

Lemma image_save_raises img outpath e w :
  png img = Raise e -> (image_save img outpath w).2 = Raise e.
Proof.
  intros Hpng. unfold image_save. rewrite Hpng. run_py.
  destruct (negb _); reflexivity.
Qed.

Lemma image_export_true data
      (paths : string * string) (choose : bool -> string) w :
  (try_except
     (let* img := eval (image data) in
      match img with
      | Some img =>
          if (0 <? fst (img_size img)) && (0 <? snd (img_size img)) then
            let* taken := path_exists (choose false) in
            image_save img (choose taken) >>
            ret true
          else ret false
      | None => ret false
      end)
     (fun _ => ret false) w).2 = Ret true ->
  is_Some (image_plan paths data).
Proof.
  unfold image_plan, try_except, bind, eval, path_exists, ret.
  destruct (image data) as [[img|]|]; simpl; try discriminate.
  destruct ((0 <? (img_size img).1) && (0 <? (img_size img).2)); simpl;
    [|discriminate].
  destruct (png img) as [encoded|e] eqn:Hpng; [intros _; eauto|].
  match goal with
  | |- context [image_save img ?p w] =>
      pose proof (image_save_raises img p e w Hpng) as Hsave;
      destruct (image_save img p w) as [w1 [[]|e1]]
  end; simpl in *; discriminate.
Qed.

Lemma planned_extractor_true
    kind (extract : extractor) (plan_of : planner) obj output_dir w data :
  (kind, extract, plan_of) ∈ planned_extractors ->
  kind <> "AudioClip" ->
  read obj = Ret data ->
  (extract obj output_dir w).2 = Ret true ->
  is_Some (plan_of output_dir obj data).
Proof.
  intros Hin Hkind Hread. unfold planned_extractors in Hin.
  repeat (apply elem_of_cons in Hin as [Hin|Hin];
          [injection Hin as -> -> ->|]);
    [| |congruence| | | |inversion Hin].
  - unfold extract_texture2d, texture_plan. rewrite Hread.
    unfold bind at 1, eval at 1.
    apply (image_export_true data _
             (fun taken : bool =>
                if taken then texture_path_with_id output_dir obj data
                else texture_path output_dir obj data)).
  - unfold extract_mesh, mesh_plan. rewrite Hread. run_py.
    destruct (export data) as [mesh_data|]; simpl; [|discriminate].
    destruct (bool_decide (mesh_data = "")); simpl; [discriminate|eauto].
  - unfold extract_textasset, text_plan, write_unencodable.
    rewrite Hread. run_py.
    destruct (m_Script data); simpl; [eauto|discriminate|eauto].
  - unfold extract_font, font_plan. rewrite Hread. run_py.
    destruct (bool_decide (m_FontData data = [])); simpl;
      [discriminate|eauto].
  - unfold extract_sprite, sprite_plan. rewrite Hread.
    unfold bind at 1, eval at 1.
    apply (image_export_true data _
             (fun taken : bool =>
                if taken
                then named_path_with_id output_dir "sprite_" obj
                                        (m_Name data) ".png"
                else named_path output_dir "sprite_" obj
                                (m_Name data) ".png")).
Qed.

Lemma extract_audioclip_true obj output_dir w data :
  read obj = Ret data ->
  (extract_audioclip obj output_dir w).2 = Ret true -> has_samples data.
Proof.
  intros Hread. unfold has_samples, extract_audioclip. rewrite Hread.
  unfold bind at 1, eval at 1. unfold try_except, bind, eval, ret.
  destruct (samples data) as [items|e]; simpl; [|discriminate].
  case_bool_decide as Hnil; simpl; [discriminate|]. eauto.
Qed.

(** X13: an exporter of [EXTRACTORS] returns [True] only after it has
    written what it had to write.  When it returns [True], the texture
    and the sprite had an image of positive width and height that the
    encoder accepted, the mesh a non-empty export, the font non-empty
    data, the text a script that could be encoded, and the file with
    that content is at the computed path (at the path with the
    identifier when the first was taken), every other file being as it
    was; the audio clip had at least one sample. *)
Theorem export_returns_true_only_after_writing
    kind (extract : extractor) (plan_of : planner) obj output_dir w data :
  (kind, extract, plan_of) ∈ planned_extractors ->
  read obj = Ret data ->
  (extract obj output_dir w).2 = Ret true ->
  if bool_decide (kind = "AudioClip") then has_samples data
  else exists first with_id content,
         plan_of output_dir obj data = Some (first, with_id, content)
         /\ (extract obj output_dir w).1 = written w first with_id content.
Proof.
  intros Hin Hread Htrue. case_bool_decide as Hkind.
  - subst kind. unfold planned_extractors in Hin.
    repeat (apply elem_of_cons in Hin as [Hin|Hin];
            [simplify_eq|]);
      [|inversion Hin].
    apply (extract_audioclip_true obj output_dir w data Hread), Htrue.
  - destruct (planned_extractor_true kind extract plan_of obj output_dir w
                data Hin Hkind Hread Htrue)
      as [[[first with_id] content] Hplan].
    exists first, with_id, content. split; [exact Hplan|].
    erewrite planned_extractor_written by eassumption. reflexivity.
Qed.

Lemma export_returns_true_only_after_writing_witness :
  let data :=
    mkObjectData "notes" 0 0 (Ret None) (Raise (Exception "not a mesh"))
                 (Ret []) (ScriptStr "hello") [] in
  let obj := mkAssetObject "TextAsset" 4 (Ret data) in
  let w := mkWorld ∅ [] in
  if bool_decide ("TextAsset" = "AudioClip") then has_samples data
  else exists first with_id content,
         text_plan "out/TextAsset" obj data = Some (first, with_id, content)
         /\ (extract_textasset obj "out/TextAsset" w).1
            = written w first with_id content.
Proof.
  intros data obj w.
  apply (export_returns_true_only_after_writing
           "TextAsset" extract_textasset text_plan obj "out/TextAsset"
           w data).
  - unfold planned_extractors. do 3 right. left.
  - reflexivity.
  - reflexivity.
Defined.

(** Three samples whose names are sanitised to one name give two
    files, the third sample taking the place of the second. *)
Example three_samples_two_files :
  extract_audioclip three_samples "out" (mkWorld ∅ [])
  = (mkWorld {[ "out/a_b.ogg" := b "OggS1";
                "out/a_b_5.ogg" := b "OggS3" ]} [],
     Ret true).
Proof.
  vm_compute. reflexivity.
Qed.

Lemma length_safe_filename (name : string) :
  String.length (safe_filename name) = String.length name.
Proof.
  unfold safe_filename. induction name as [|c name IH]; [reflexivity|].
  cbn [list_ascii_of_string map string_of_list_ascii String.length].
  rewrite IH. reflexivity.
Qed.

Lemma safe_filename_safe (name : string) :
  forallb safe_char (list_ascii_of_string (safe_filename name)) = true.
Proof.
  unfold safe_filename. induction name as [|c name IH]; [reflexivity|].
  cbn [list_ascii_of_string map string_of_list_ascii forallb].
  rewrite IH, andb_true_r. fold (safe_char c).
  destruct (safe_char c) eqn:E; [exact E|reflexivity].
Qed.

Lemma safe_filename_fixes_safe (name : string) :
  forallb safe_char (list_ascii_of_string name) = true ->
  safe_filename name = name.
Proof.
  unfold safe_filename. induction name as [|c name IH]; [reflexivity|].
  cbn [list_ascii_of_string map string_of_list_ascii forallb].
  rewrite andb_true_iff. intros [Hc Hs]. fold (safe_char c).
  rewrite Hc, IH by exact Hs. reflexivity.
Qed.

(** X14: [safe_filename] keeps the length of the name, yields only
    letters, digits and the characters [._-] (so no path separator),
    and leaves a name made of such characters as it is: applying it
    twice is applying it once. *)
Theorem safe_filename_is_safe_and_idempotent (name : string) :
  String.length (safe_filename name) = String.length name
  /\ forallb safe_char (list_ascii_of_string (safe_filename name)) = true
  /\ (forallb safe_char (list_ascii_of_string name) = true ->
      safe_filename name = name)
  /\ safe_filename (safe_filename name) = safe_filename name.
Proof.
  split; [apply length_safe_filename|].
  split; [apply safe_filename_safe|].
  split; [apply safe_filename_fixes_safe|].
  apply safe_filename_fixes_safe, safe_filename_safe.
Qed.

End ExporterResultFacts.

(** ** The counters of the texture tool *)
Module TextureCountFacts.
Import EngineSpec TextureToolSpec TextureCountSpec.
Import ExtractTextures.

#[local] Arguments image_save : simpl never.
#[local] Arguments os_path_join : simpl never.
#[local] Arguments ExtractAssets.safe_filename : simpl never.
#[local] Arguments str_of_Z : simpl never.
#[local] Arguments str_or : simpl never.





Section Engine.

Variable UnityPy_load : string -> outcome (list AssetObject).




End Engine.

(** X16: on a [Texture2D] object that the minimum-size filter does not
    skip, the loop body of [extract_textures.py] does to the files what
    the texture exporter of [extract_assets.py] does with the same
    output directory, and counts the object as extracted when that
    exporter returns [True] and as failed otherwise, also when
    [obj.read()] raises. *)
Theorem texture_tool_agrees_with_texture_exporter args c obj w :
  type_name obj = "Texture2D" ->
  skips args obj = false ->
  let exported := ExtractAssets.extract_texture2d obj (output_dir args) w in
  process_object args c obj w
  = (exported.1, Ret (count_export c exported.2)).
Proof.
  intros Htype Hskip. unfold skips in Hskip. simpl.
  unfold process_object, ExtractAssets.extract_texture2d.
  rewrite bool_decide_eq_true_2 by exact Htype.
  unfold try_except, bind, eval, ret, path_exists, safe_filename.
  destruct (read obj) as [data|e]; simpl; [|reflexivity].
  rewrite Hskip.
  destruct (image data) as [[img|]|e]; simpl; try reflexivity.
  destruct ((0 <? (img_size img).1) && (0 <? (img_size img).2)); simpl;
    [|reflexivity].
  match goal with
  | |- context [image_save img ?p w] =>
      destruct (image_save img p w) as [w1 [[]|e]]
  end; reflexivity.
Qed.

Lemma texture_tool_agrees_with_texture_exporter_witness :
  let args := mkArgs "in" "out" "2021.3.57f2" 64 in
  let c := mkCounters 2 1 0 in
  let obj := mkAssetObject "Texture2D" 7
               (Ret (mkObjectData "wide" 128 16
                       (Ret (Some (mkImage (128, 16) (Ret (b "png")))))
                       (Raise (Exception "not a mesh")) (Ret [])
                       (ScriptStr "") [])) in
  let w := mkWorld ∅ [] in
  let exported := ExtractAssets.extract_texture2d obj (output_dir args) w in
  process_object args c obj w
  = (exported.1, Ret (count_export c exported.2)).
Proof.
  intros args c obj w.
  apply (texture_tool_agrees_with_texture_exporter args c obj w);
    reflexivity.
Defined.

End TextureCountFacts.

(** ** What is never removed *)
Module PersistenceFacts.
Import ConfinementSpec.

#[local] Arguments os_path_join : simpl never.
#[local] Arguments ExtractAssets.safe_filename : simpl never.
#[local] Arguments str_of_Z : simpl never.
#[local] Arguments str_or : simpl never.

Section Respects.

Variable R : World -> World -> Prop.
Hypothesis R_refl : forall w, R w w.
Hypothesis R_trans : forall w1 w2 w3, R w1 w2 -> R w2 w3 -> R w1 w3.

Lemma respects_ret {A} (a : A) : respects R (ret a).
Proof. intros w. apply R_refl. Qed.

Lemma respects_eval {A} (o : outcome A) : respects R (eval o).
Proof. intros w. apply R_refl. Qed.

Lemma respects_reads {A} (f : World -> A) : respects R (reads f).
Proof. intros w. apply R_refl. Qed.

Lemma respects_path_exists path : respects R (path_exists path).
Proof. intros w. apply R_refl. Qed.

Lemma respects_open_rb path : respects R (open_rb path).
Proof.
  intros w. unfold open_rb. destruct (files w !! path); apply R_refl.
Qed.

Lemma respects_bind {A B} (m : Py A) (k : A -> Py B) :
  respects R m -> (forall a, respects R (k a)) -> respects R (bind m k).
Proof.
  intros Hm Hk w. unfold bind. specialize (Hm w).
  destruct (m w) as [w1 [a|e]]; simpl in *; [|exact Hm].
  eapply R_trans; [exact Hm|apply Hk].
Qed.

Lemma respects_try_except {A} (m : Py A) (h : exn -> Py A) :
  respects R m -> (forall e, respects R (h e)) -> respects R (try_except m h).
Proof.
  intros Hm Hh w. unfold try_except. specialize (Hm w).
  destruct (m w) as [w1 [a|e]]; simpl in *; [exact Hm|].
  eapply R_trans; [exact Hm|apply Hh].
Qed.

Lemma respects_when (c : bool) (m : Py unit) :
  respects R m -> respects R (when c m).
Proof. intros Hm. destruct c; [exact Hm|apply respects_ret]. Qed.

Lemma respects_for_each {A} (l : list A) (body : A -> Py unit) :
  (forall x, respects R (body x)) -> respects R (for_each l body).
Proof.
  intros Hbody. induction l as [|x l IH]; simpl.
  - apply respects_ret.
  - apply respects_bind; [apply Hbody|intros _; exact IH].
Qed.

Lemma respects_fold_m {A S} (body : S -> A -> Py S) (l : list A) :
  (forall acc x, respects R (body acc x)) ->
  forall acc, respects R (fold_m body l acc).
Proof.
  intros Hbody. induction l as [|x l IH]; intros acc; simpl.
  - apply respects_ret.
  - apply respects_bind; [apply Hbody|intros acc'; apply IH].
Qed.

End Respects.

Lemma keeps_files_refl w : keeps_files w w.
Proof. intros p Hp. exact Hp. Qed.

Lemma keeps_files_trans w1 w2 w3 :
  keeps_files w1 w2 -> keeps_files w2 w3 -> keeps_files w1 w3.
Proof. intros H12 H23 p Hp. apply H23, H12, Hp. Qed.

Lemma keeps_print msg : respects keeps_files (print msg).
Proof. intros w p Hp. exact Hp. Qed.

Lemma keeps_write_file path data :
  respects keeps_files (write_file path data).
Proof.
  intros w p Hp. simpl. apply lookup_insert_is_Some.
  destruct (decide (path = p)); auto.
Qed.

(** [img.save] removes the file only when it did not exist before. *)
Lemma keeps_image_save img outpath :
  respects keeps_files (image_save img outpath).
Proof.
  intros w p Hp. unfold image_save, bind, path_exists, write_file.
  destruct (png img) as [data|e]; simpl.
  - rewrite !lookup_insert_is_Some. destruct (decide (outpath = p)); auto.
  - unfold when, remove_file, raise, ret. case_bool_decide as Hexisted; simpl.
    + rewrite lookup_insert_is_Some. destruct (decide (outpath = p)); auto.
    + assert (Hne : outpath <> p) by (intros ->; contradiction).
      rewrite lookup_delete_ne, lookup_insert_ne by exact Hne. exact Hp.
Qed.

Ltac keep :=
  repeat first
    [ exact keeps_files_refl
    | exact keeps_files_trans
    | apply keeps_print
    | apply keeps_write_file
    | apply keeps_image_save
    | apply respects_ret
    | apply respects_eval
    | apply respects_reads
    | apply respects_path_exists
    | apply respects_open_rb
    | apply respects_when
    | apply respects_for_each; [| |intros ?]
    | apply respects_fold_m; [| |intros ? ?]
    | apply respects_try_except; [| |intros ?]
    | apply respects_bind; [| |intros ?]
    | match goal with
      | |- respects _ (let '(_, _) := ?x in _) => destruct x
      end
    | case_match ].

Lemma strip_cfs_header_keeps input_path output_path :
  respects keeps_files (StripCfs.strip_cfs_header input_path output_path).
Proof.
  unfold StripCfs.strip_cfs_header, file_read, file_read_all, makedirs.
  keep.
Qed.

Lemma strip_main_keeps argv : respects keeps_files (StripCfs.main argv).
Proof.
  unfold StripCfs.main, StripCfs.isfile, StripCfs.isdir,
    StripCfs.process_directory, StripCfs.candidate_files.
  pose proof strip_cfs_header_keeps as Hstrip.
  destruct (length argv <? 3)%nat; [keep|].
  apply respects_bind; [exact keeps_files_trans|keep|intros is_file].
  destruct is_file.
  - apply respects_bind; [exact keeps_files_trans|apply Hstrip|intros ?].
    keep.
  - apply respects_bind; [exact keeps_files_trans|keep|intros is_dir].
    destruct is_dir; [|keep].
    apply respects_bind; [exact keeps_files_trans| |intros ?; keep].
    apply respects_bind; [exact keeps_files_trans|keep|intros files].
    apply respects_fold_m;
      [exact keeps_files_refl|exact keeps_files_trans|intros stats filepath].
    apply respects_try_except; [exact keeps_files_trans| |intros ?; keep].
    apply respects_bind; [exact keeps_files_trans|apply Hstrip|intros ?].
    keep.
Qed.

Lemma extractor_keeps kind (extract : ExtractAssets.extractor)
      obj output_dir :
  (kind, extract) ∈ ExtractAssets.EXTRACTORS ->
  respects keeps_files (extract obj output_dir).
Proof.
  intros Hin. unfold ExtractAssets.EXTRACTORS in Hin.
  repeat (apply elem_of_cons in Hin as [Hin|Hin]; [injection Hin as -> ->|]);
    [| | | | | |inversion Hin];
    unfold ExtractAssets.extract_texture2d, ExtractAssets.extract_mesh,
      ExtractAssets.extract_audioclip, ExtractAssets.extract_textasset,
      ExtractAssets.extract_font, ExtractAssets.extract_sprite, write_text;
    keep.
Qed.

Section Engine.

Variable UnityPy_load : string -> outcome (list AssetObject).

Lemma extract_run_keeps args :
  respects keeps_files (ExtractAssets.run UnityPy_load args).
Proof.
  unfold ExtractAssets.run, ExtractAssets.parse_types,
    ExtractAssets.find_bundles, ExtractAssets.process_bundle, makedirs.
  assert (Hobj : forall extract_types output_dir stats obj,
             respects keeps_files
               (ExtractAssets.process_object extract_types output_dir
                                             stats obj)).
  { intros extract_types output_dir stats obj.
    unfold ExtractAssets.process_object.
    destruct (_ && _); [|keep].
    apply respects_try_except; [exact keeps_files_trans| |intros ?; keep].
    destruct (ExtractAssets.dict_getitem ExtractAssets.EXTRACTORS
                (type_name obj)) as [extract|e] eqn:Hget.
    - apply ConfinementFacts.dict_getitem_elem in Hget.
      pose proof (extractor_keeps _ extract obj
                    (os_path_join output_dir (type_name obj)) Hget) as Hex.
      intros w. unfold bind, eval. specialize (Hex w).
      destruct (extract obj (os_path_join output_dir (type_name obj)) w)
        as [w1 [[|]|e]]; exact Hex.
    - intros w. apply keeps_files_refl. }
  apply respects_bind; [exact keeps_files_trans|keep|intros extract_types].
  apply respects_bind; [exact keeps_files_trans|keep|intros _].
  apply respects_bind; [exact keeps_files_trans|keep|intros bundles].
  apply respects_fold_m;
    [exact keeps_files_refl|exact keeps_files_trans|intros stats bundle_file].
  apply respects_try_except; [exact keeps_files_trans| |intros [msg]; keep].
  apply respects_bind; [exact keeps_files_trans|keep|intros objects].
  apply respects_fold_m;
    [exact keeps_files_refl|exact keeps_files_trans|intros; apply Hobj].
Qed.

Lemma texture_run_keeps args :
  respects keeps_files (ExtractTextures.run UnityPy_load args).
Proof.
  unfold ExtractTextures.run, ExtractTextures.find_bundles,
    ExtractAssets.find_bundles, ExtractTextures.process_bundle,
    ExtractTextures.process_object, ExtractTextures.safe_filename, makedirs.
  keep.
Qed.

(** X17: none of the three tools removes a file that was there when it
    started: [strip_cfs.py], [extract_assets.py] and
    [extract_textures.py] may overwrite or truncate an existing file,
    but every path that held a file before the run holds one after it.
    The only removal, inside [img.save], is of a file that the same
    call created. *)
Theorem tools_never_remove_a_file
    (argv : list string) (args : ExtractAssets.Args)
    (texture_args : ExtractTextures.Args) (w : World) :
  keeps_files w (StripCfs.main argv w).1
  /\ keeps_files w (ExtractAssets.run UnityPy_load args w).1
  /\ keeps_files w (ExtractTextures.run UnityPy_load texture_args w).1.
Proof.
  split; [apply strip_main_keeps|].
  split; [apply extract_run_keeps|apply texture_run_keeps].
Qed.

End Engine.

End PersistenceFacts.

(** ** The type selection and bundles that do not load *)
Module SelectionFacts.
Import SelectionSpec EngineSpec.
Import ExtractAssets.

Lemma EXTRACTORS_keys_supported :
  list_to_set (C := gset string) EXTRACTORS_keys ⊆ SUPPORTED_TYPES.
Proof.
  intros name. unfold EXTRACTORS_keys, EXTRACTORS, SUPPORTED_TYPES.
  cbn [map fst]. rewrite !elem_of_list_to_set, !elem_of_cons.
  tauto.
Qed.

Lemma elem_of_requested (l : list string) (name : string) :
  name ∈ (list_to_set l ∩ SUPPORTED_TYPES : gset string)
  <-> name ∈ l /\ name ∈ SUPPORTED_TYPES.
Proof. rewrite elem_of_intersection, elem_of_list_to_set. reflexivity. Qed.

Lemma no_invalid_name (l : list string) :
  (list_to_set l ∖ SUPPORTED_TYPES : gset string) = ∅
  <-> forall name, name ∈ l -> name ∈ SUPPORTED_TYPES.
Proof.
  split.
  - intros Hempty name Hname.
    destruct (decide (name ∈ SUPPORTED_TYPES)) as [Hin|Hout]; [exact Hin|].
    exfalso. apply (not_elem_of_empty (C := gset string) name).
    rewrite <- Hempty. apply elem_of_difference.
    split; [apply elem_of_list_to_set, Hname|exact Hout].
  - intros Hall. apply leibniz_equiv. intros name.
    rewrite elem_of_difference, elem_of_list_to_set. split.
    + intros [Hname Hout]. exfalso. apply Hout, Hall, Hname.
    + intros Hname. exfalso. exact (not_elem_of_empty name Hname).
Qed.

(** X18: the set of types of a run holds supported names only.  With
    [--types] absent or empty it is the set of the types that have an
    exporter; otherwise it holds the names between the commas of
    [--types] that are supported, taken as they are written, and the
    warning about unknown types is printed exactly when one of these
    names is not supported.  No file is touched. *)
Theorem parse_types_keeps_supported_names (types : option string) (w : World) :
  exists warnings extract_types,
    parse_types types w
    = (mkWorld (files w) (stdout w ++ warnings), Ret extract_types)
    /\ extract_types ⊆ SUPPORTED_TYPES
    /\ (types = None \/ types = Some "" ->
        warnings = []
        /\ forall name, name ∈ extract_types <-> name ∈ EXTRACTORS_keys)
    /\ (forall t, types = Some t -> t <> "" ->
        (forall name,
            name ∈ extract_types
            <-> name ∈ requested_names t /\ name ∈ SUPPORTED_TYPES)
        /\ (warnings = []
            <-> forall name, name ∈ requested_names t ->
                             name ∈ SUPPORTED_TYPES)).
Proof.
  assert (Hdefault :
    exists warnings extract_types,
      ret (list_to_set (C := gset string) EXTRACTORS_keys) w
      = (mkWorld (files w) (stdout w ++ warnings), Ret extract_types)
      /\ extract_types ⊆ SUPPORTED_TYPES
      /\ warnings = []
      /\ forall name, name ∈ extract_types <-> name ∈ EXTRACTORS_keys).
  { exists [], (list_to_set EXTRACTORS_keys). unfold ret.
    rewrite app_nil_r. destruct w as [fs out]; cbn [files stdout].
    split; [reflexivity|]. split; [apply EXTRACTORS_keys_supported|].
    split; [reflexivity|]. intros name. apply elem_of_list_to_set. }
  unfold parse_types, requested_names. destruct types as [t|].
  - case_bool_decide as Hempty; simpl.
    + destruct Hdefault as (warnings & extract_types & Hrun & Hsub & Hw & Hk).
      exists warnings, extract_types. split; [exact Hrun|].
      split; [exact Hsub|]. split; [auto|].
      intros t' [= <-] Hne. contradiction.
    + unfold bind, when, print, ret.
      case_bool_decide as Hinvalid; simpl.
      * exists [], (list_to_set (split_on "," t) ∩ SUPPORTED_TYPES).
        rewrite app_nil_r. destruct w as [fs out]; cbn [files stdout].
        split; [reflexivity|]. split; [apply intersection_subseteq_r|].
        split; [intros [|[= ->]]; [discriminate|contradiction]|].
        intros t' [= <-] _. split; [apply elem_of_requested|].
        split; [|reflexivity]. intros _. apply no_invalid_name, Hinvalid.
      * eexists [_], (list_to_set (split_on "," t) ∩ SUPPORTED_TYPES).
        split; [reflexivity|]. split; [apply intersection_subseteq_r|].
        split; [intros [|[= ->]]; [discriminate|contradiction]|].
        intros t' [= <-] _. split; [apply elem_of_requested|].
        split; [discriminate|]. intros Hall. exfalso.
        apply Hinvalid, no_invalid_name, Hall.
  - destruct Hdefault as (warnings & extract_types & Hrun & Hsub & Hw & Hk).
    exists warnings, extract_types. split; [exact Hrun|].
    split; [exact Hsub|]. split; [auto|]. discriminate.
Qed.

(** A name is taken as it is written: a space after the comma makes it
    unknown. *)
Example space_after_comma_is_unknown :
  parse_types (Some "Mesh, Font") (mkWorld ∅ [])
  = (mkWorld ∅ [WarnUnknownTypes [" Font"]], Ret {[ "Mesh" ]}).
Proof. vm_compute. reflexivity. Qed.

Section Engine.

Variable UnityPy_load : string -> outcome (list AssetObject).

(** X19: a bundle file that [UnityPy.load] rejects is skipped by both
    tools: the statistics, the counters and the files are as they were
    before it.  [extract_assets.py] reports the file by its name unless
    the message of the exception mentions [bundle] or [unity], in
    whatever case; [extract_textures.py] stays silent. *)
Theorem unloadable_bundle_is_skipped
    extract_types output_dir stats texture_args counters bundle_file msg w :
  UnityPy_load bundle_file = Raise (Exception msg) ->
  process_bundle UnityPy_load extract_types output_dir stats bundle_file w
  = (mkWorld (files w)
       (stdout w ++ if silenced msg then []
                    else [MsgLoadError (Pathlib.name bundle_file)]),
     Ret stats)
  /\ ExtractTextures.process_bundle UnityPy_load texture_args counters
                                    bundle_file w
     = (w, Ret counters).
Proof.
  intros Hload.
  unfold process_bundle, ExtractTextures.process_bundle, try_except, bind,
    eval, when, print, ret, silenced.
  rewrite Hload.
  destruct (contains "bundle" (lower msg) || contains "unity" (lower msg));
    simpl; rewrite ?app_nil_r; destruct w; split; reflexivity.
Qed.

End Engine.

Lemma unloadable_bundle_is_skipped_witness :
  let load := load_nothing "Not a UnityFS Bundle" in
  let w := mkWorld {[ "in/readme.txt" := b "notes" ]} [] in
  process_bundle load ∅ "out" ∅ "in/readme.txt" w
  = (mkWorld (files w)
       (stdout w ++ if silenced "Not a UnityFS Bundle" then []
                    else [MsgLoadError (Pathlib.name "in/readme.txt")]),
     Ret ∅)
  /\ ExtractTextures.process_bundle load
       (ExtractTextures.mkArgs "in" "out" "2021.3.57f2" 0)
       (ExtractTextures.mkCounters 0 0 0) "in/readme.txt" w
     = (w, Ret (ExtractTextures.mkCounters 0 0 0)).
Proof.
  intros load w.
  apply (unloadable_bundle_is_skipped load ∅ "out" ∅
           (ExtractTextures.mkArgs "in" "out" "2021.3.57f2" 0)
           (ExtractTextures.mkCounters 0 0 0) "in/readme.txt"
           "Not a UnityFS Bundle" w).
  reflexivity.
Defined.

End SelectionFacts.
